(** * BrainPy / NumpyBrain: synaptic connections, scatter-sum wrapper and
      process-wide configuration

    A shallow embedding of
    - [npbrain/core_system/synapse_connection.py]
        ([SynConn.__init__], [SynConn._merge_steps], [post_cond_by_post2syn]),
    - [extensions/brainpylib/atomic_sum.py] ([coo_atomic_sum], its abstract
      evaluation rule),
    - [brainpy/math/__init__.py] ([set_dt], [get_dt], [get_backend_name],
      [use_backend]),
    and the properties of these functions.

    Python exceptions are values of [exn]; a function that may raise returns
    a [result].  Python [float]s are IEEE binary64 numbers, taken from the
    Standard Library's [SpecFloat]; Python [int]s are [Z]. *)

From Stdlib Require Import ZArith List Bool Ascii String Lia SpecFloat.
From stdpp Require Import base option list strings pretty gmap.

Local Open Scope Z_scope.

(** ** Python exceptions and fallible computations *)

Inductive exn : Type :=
| AssertionError (msg : string)
| ValueError (msg : string)
| TypeError (msg : string)
| KeyError (key : string)
| IndexError (msg : string)
| OverflowError (msg : string)
| ZeroDivisionError (msg : string)
| NameError (msg : string)
| AttributeError (msg : string)
| ImportError (msg : string)
| RuntimeError (msg : string).

Definition exn_msg (e : exn) : string :=
  match e with
  | AssertionError m | ValueError m | TypeError m | KeyError m
  | IndexError m | OverflowError m | ZeroDivisionError m | NameError m
  | AttributeError m | ImportError m | RuntimeError m => m
  end.

Inductive result (A : Type) : Type :=
| Ok (a : A)
| Raise (e : exn).
Arguments Ok {A} a.
Arguments Raise {A} e.

#[global] Instance result_ret : MRet result := fun A a => Ok a.
#[global] Instance result_bind : MBind result := fun A B k r =>
  match r with
  | Ok a => k a
  | Raise e => Raise e
  end.

(** [assert cond, msg] *)
Definition py_assert (cond : bool) (msg : string) : result unit :=
  if cond then Ok tt else Raise (AssertionError msg).

(** ** Strings: f-string pieces and the [in] test on strings *)

(** The double-quote character, which several messages of the sources
    contain. *)
Definition dq : string := String (ascii_of_nat 34) EmptyString.

(** [str(n)] for an [int]. *)
Definition str_int (n : Z) : string := pretty n.

Fixpoint starts_with (p s : string) : bool :=
  match p, s with
  | EmptyString, _ => true
  | String a p', String b s' => if Ascii.eqb a b then starts_with p' s' else false
  | String _ _, EmptyString => false
  end.

(** [p in s] for two Python strings. *)
Fixpoint includes (p s : string) : bool :=
  starts_with p s ||
  match s with
  | EmptyString => false
  | String _ s' => includes p s'
  end.

(** ** Python floats: IEEE binary64 *)

Definition float : Type := spec_float.

Definition prec : Z := 53.
Definition emax : Z := 1024.

Definition float_div : float -> float -> float := SFdiv prec emax.

(** [float(n)] for an [int] [n]: round to nearest-even; [OverflowError] when
    the integer is too large. *)
Definition float_of_int (n : Z) : result float :=
  match binary_normalize prec emax n 0 false with
  | S754_infinity _ => Raise (OverflowError "int too large to convert to float")
  | f => Ok f
  end.

(** The binary32 number nearest to a binary64 one, ties to even: what the
    conversion of a float64 element to float32 stores. *)
Definition round_float32 (f : float) : float :=
  match f with
  | S754_finite s m e =>
      binary_normalize 24 128 (if s then Z.neg m else Z.pos m) e s
  | _ => f
  end.

Definition float_zero : float := S754_zero false.

Definition float_is_zero (f : float) : bool :=
  match f with S754_zero _ => true | _ => false end.

(** [a / b] on two Python floats. *)
Definition py_truediv (a b : float) : result float :=
  if float_is_zero b then Raise (ZeroDivisionError "float division by zero")
  else Ok (float_div a b).

(** [int(np.ceil(x))]: the least integer not below [x]; [int] rejects
    infinities and NaN. *)
Definition int_of_ceil (x : float) : result Z :=
  match x with
  | S754_zero _ => Ok 0
  | S754_finite s m e =>
      let v := if s then Z.neg m else Z.pos m in
      Ok (if 0 <=? e then v * 2 ^ e else - ((- v) / 2 ^ (- e)))
  | S754_infinity _ => Raise (OverflowError "cannot convert float infinity to integer")
  | S754_nan => Raise (ValueError "cannot convert float NaN to integer")
  end.

(** The ceiling in the words of arithmetic: [k] is the least integer that is
    not below the number [x] stands for, [(-1)^s * m * 2^e]. *)
Definition is_ceiling (x : float) (k : Z) : Prop :=
  match x with
  | S754_zero _ => k = 0
  | S754_finite s m e =>
      let v := if s then Z.neg m else Z.pos m in
      if 0 <=? e then k = v * 2 ^ e
      else (k - 1) * 2 ^ (- e) < v <= k * 2 ^ (- e)
  | S754_infinity _ | S754_nan => False
  end.

(** [x] is neither a negative number nor minus infinity. *)
Definition not_negative (x : float) : bool :=
  match x with
  | S754_zero _ | S754_nan => true
  | S754_finite s _ _ | S754_infinity s => negb s
  end.

(** [x] is neither a positive number nor plus infinity. *)
Definition not_positive (x : float) : bool :=
  match x with
  | S754_zero _ | S754_nan => true
  | S754_finite s _ _ | S754_infinity s => s
  end.

(** [a <= b] and [a < b] on two Python floats. *)
Definition float_leb : float -> float -> bool := SFleb.
Definition float_ltb : float -> float -> bool := SFltb.

(** The binary64 number nearest to 0.1, the default of [__dt]. *)
Definition float_0_1 : float := S754_finite false 7205759403792794 (-56).

Definition float_1 : float := S754_finite false 4503599627370496 (-52).
Definition float_neg_1 : float := S754_finite true 4503599627370496 (-52).
Definition float_2 : float := S754_finite false 4503599627370496 (-51).
Definition float_3 : float := S754_finite false 6755399441055744 (-51).

(** ** Python values that the modelled functions receive *)

Inductive pyval : Type :=
| PyNone
| PyInt (n : Z)            (* [int], and [bool] as its subclass *)
| PyFloat (f : float)
| PyStr (s : string)
| PyObj (repr : string).   (* any other object: function, class, module *)

(** [isinstance(v, float)] *)
Definition isinstance_float (v : pyval) : bool :=
  match v with PyFloat _ => true | _ => false end.

(** ** Arrays

    An [ndarray] has an element type tag, a shape and its elements in
    row-major order. *)

Inductive dtype : Type :=
| bool_ | int32 | int64 | uint32 | uint64 | float16 | float32 | float64.

Definition dtype_eqb (a b : dtype) : bool :=
  match a, b with
  | bool_, bool_ | int32, int32 | int64, int64 | uint32, uint32
  | uint64, uint64 | float16, float16 | float32, float32
  | float64, float64 => true
  | _, _ => false
  end.

(** [str(d)] and [repr(d)] of a dtype. *)
Definition dtype_str (d : dtype) : string :=
  match d with
  | bool_ => "bool" | int32 => "int32" | int64 => "int64"
  | uint32 => "uint32" | uint64 => "uint64" | float16 => "float16"
  | float32 => "float32" | float64 => "float64"
  end.

Definition dtype_repr (d : dtype) : string := "dtype('" +:+ dtype_str d +:+ "')".

Record ndarray (A : Type) : Type := mk_ndarray {
  arr_dtype : dtype;
  arr_shape : list Z;
  arr_data : list A
}.
Arguments mk_ndarray {A}.
Arguments arr_dtype {A}.
Arguments arr_shape {A}.
Arguments arr_data {A}.

(** [np.ndim(a)], [np.size(a)] / [a.size], [len(a)] *)
Definition ndim {A} (a : ndarray A) : Z := Z.of_nat (length (arr_shape a)).

Definition size {A} (a : ndarray A) : Z := fold_right Z.mul 1 (arr_shape a).

Definition len {A} (a : ndarray A) : result Z :=
  match arr_shape a with
  | n :: _ => Ok n
  | [] => Raise (TypeError "len() of unsized object")
  end.

(** A one-dimensional array built from a list. *)
Definition array1 {A} (d : dtype) (l : list A) : ndarray A :=
  mk_ndarray d [Z.of_nat (length l)] l.

(** * [brainpy/math/__init__.py]: process-wide [dt] and backend name *)

Module BrainpyMath.

(** The module's [globals()]: a dictionary from names to values. *)
Abbreviation globals := (gmap string pyval).

(** The state of the module after it is imported: [__dt = 0.1],
    [BACKEND_NAME = 'numpy'], and the other names that the module binds
    (imports, functions, tables), which are the parameter [others]. *)
Definition module_globals (others : globals) : globals :=
  <["BACKEND_NAME" := PyStr "numpy"]> (<["__dt" := PyFloat float_0_1]> others).

(** [set_dt(dt)]: the new globals and the outcome of the call. *)
Definition set_dt (dt : pyval) (g : globals) : globals * result unit :=
  match py_assert (isinstance_float dt) "" with
  | Ok _ => (<["__dt" := dt]> g, Ok tt)
  | Raise e => (g, Raise e)
  end.

Definition read_global (name : string) (g : globals) : result pyval :=
  match g !! name with
  | Some v => Ok v
  | None => Raise (NameError ("name '" +:+ name +:+ "' is not defined"))
  end.

(** [get_dt()] *)
Definition get_dt (g : globals) : result pyval := read_global "__dt" g.

(** [get_backend_name()] *)
Definition get_backend_name (g : globals) : result pyval :=
  read_global "BACKEND_NAME" g.

Section UseBackend.

(** What lies outside this module is a parameter: [object_dict m] is
    [m.__dict__.items()] for an object [m] (an exception when [m] has no
    [__dict__]), and [import_submodule name] is what importing the submodule
    [brainpy.math.<name>] gives.  The calls modelled here assign only into
    the globals of [brainpy.math], so the dictionaries of the other objects
    stay as they are from one call to the next. *)
Variable object_dict : pyval -> result (list (string * pyval)).
Variable import_submodule : string -> result pyval.

Definition unknown_backend_msg (name : string) : string :=
  "Unknown backend " +:+ dq +:+ name +:+ dq +:+
  ", now we only support: numpy, numba, jax.".

(** [from brainpy.math import <name> as module], run inside the package:
    the attribute [<name>] of the package, that is the global of that name,
    when there is one; otherwise the submodule is imported, which binds it
    to the name. *)
Definition from_import (name : string) (g : globals) : globals * result pyval :=
  match g !! name with
  | Some module => (g, Ok module)
  | None =>
      match import_submodule name with
      | Ok module => (<[name := module]> g, Ok module)
      | Raise e => (g, Raise e)
      end
  end.

(** The [if]/[elif] chain that selects [module]. *)
Definition select_module (name : string) (g : globals)
  : globals * result pyval :=
  if String.eqb name "numpy" then from_import "numpy" g
  else if String.eqb name "numba" then from_import "numba" g
  else if String.eqb name "jax" then from_import "jax" g
  else (g, Raise (ValueError (unknown_backend_msg name))).

Definition kept_private : list string :=
  ["__name__"; "__doc__"; "__file__"; "__path__"].

(** The test that makes the loop [continue]: the key starts with an
    underscore and is not one of the four kept names. *)
Definition skipped (key : string) : bool :=
  starts_with "_" key && negb (existsb (String.eqb key) kept_private).

(** One round of the loop over [module.__dict__.items()]. *)
Definition replace_operation (g : globals) (item : string * pyval) : globals :=
  let '(key, value) := item in
  if skipped key
  then g                                  (* [continue] *)
  else <[key := value]> g.

(** [use_backend(name)] *)
Definition use_backend (name : string) (g : globals) : globals * result unit :=
  match select_module name g with
  | (g, Raise e) => (g, Raise e)
  | (g, Ok module) =>
      (* replace backend name *)
      let g := <["BACKEND_NAME" := PyStr name]> g in
      (* replace operations *)
      match object_dict module with
      | Raise e => (g, Raise e)
      | Ok items => (fold_left replace_operation items g, Ok tt)
      end
  end.

(** The calls a client can make on the module. *)
Inductive call : Type :=
| CallSetDt (dt : pyval)
| CallGetDt
| CallGetBackendName
| CallGetDsDriver (backend : option string)
| CallGetDiffintDriver (backend : option string)
| CallUseBackend (name : string).

Definition is_set_dt (c : call) : bool :=
  match c with CallSetDt _ => true | _ => false end.

(** The globals after one call (its result or exception is dropped). *)
Definition after_call (g : globals) (c : call) : globals :=
  match c with
  | CallSetDt dt => fst (set_dt dt g)
  | CallUseBackend name => fst (use_backend name g)
  | CallGetDt | CallGetBackendName
  | CallGetDsDriver _ | CallGetDiffintDriver _ => g
  end.

Definition after_calls (g : globals) (cs : list call) : globals :=
  fold_left after_call cs g.

End UseBackend.

(** Objects for the examples: the three backend packages, of which
    [brainpy.math.jax] imports the library [jax], so that its dictionary
    binds the name [jax] to the library; the library [jax]; and an object
    [settings] whose dictionary has a key [BACKEND_NAME]. *)
Definition example_dict (m : pyval) : result (list (string * pyval)) :=
  match m with
  | PyObj r =>
      if String.eqb r "brainpy.math.numpy" then
        Ok [("__name__", PyStr "brainpy.math.numpy"); ("sum", PyObj "numpy.sum");
            ("_private", PyInt 1)]
      else if String.eqb r "brainpy.math.numba" then
        Ok [("__name__", PyStr "brainpy.math.numba"); ("sum", PyObj "numba.sum")]
      else if String.eqb r "brainpy.math.jax" then
        Ok [("__name__", PyStr "brainpy.math.jax"); ("jax", PyObj "jax");
            ("sum", PyObj "jax.numpy.sum")]
      else if String.eqb r "jax" then
        Ok [("__name__", PyStr "jax"); ("jit", PyObj "jax.jit")]
      else if String.eqb r "settings" then
        Ok [("BACKEND_NAME", PyStr "numpy")]
      else Raise (AttributeError "__dict__")
  | _ => Raise (AttributeError "__dict__")
  end.

Definition example_import (name : string) : result pyval :=
  Ok (PyObj ("brainpy.math." +:+ name)).

(** The globals once the package is imported: its first lines import the
    three submodules, which binds their names. *)
Definition example_globals : globals :=
  module_globals
    (<["numpy" := PyObj "brainpy.math.numpy"]>
       (<["numba" := PyObj "brainpy.math.numba"]>
          (<["jax" := PyObj "brainpy.math.jax"]> ∅))).

End BrainpyMath.

(** * [extensions/brainpylib/atomic_sum.py]: the scatter-sum wrapper *)

Module AtomicSum.

(** What [coo_atomic_sum_p1.bind] is called with.  The native kernel behind
    the primitive is not part of the Python sources. *)
Record prim_call : Type := mk_prim_call {
  pc_values : ndarray float;
  pc_pre_ids : ndarray Z;
  pc_post_ids : ndarray Z;
  pc_post_num : Z
}.

(** [_atomic_sum_abstract]: element type and shape of the primitive's
    output. *)
Definition _atomic_sum_abstract (c : prim_call) : dtype * list Z :=
  (arr_dtype (pc_values c), [pc_post_num c]).

(** [a.max()] of an integer array. *)
Definition array_max (a : ndarray Z) : result Z :=
  match arr_data a with
  | [] => Raise (ValueError
      "zero-size array to reduction operation max which has no identity")
  | x :: l => Ok (fold_left Z.max l x)
  end.

Definition length_msg (n_pre n_post : Z) : string :=
  "The length of " +:+ dq +:+ "pre_ids" +:+ dq +:+ " and " +:+ dq +:+
  "post_ids" +:+ dq +:+ " must be the same, while we got " +:+
  str_int n_pre +:+ " != " +:+ str_int n_post.

Definition index_dtype_msg (d_pre d_post : dtype) : string :=
  "The dtype of pre_ids must be equal to that of post_ids, while we got (" +:+
  dtype_repr d_pre +:+ ", " +:+ dtype_repr d_post +:+ ")".

Definition post_dtype_msg (d : dtype) : string :=
  "The dtype of post_ids must be uint32 or uint64, while we got " +:+
  dtype_str d.

Definition values_dtype_msg (d : dtype) : string :=
  "The dtype of " +:+ dq +:+ "values" +:+ dq +:+
  " must be float32 or float64, while we got " +:+ dtype_str d +:+ ".".

Definition values_size_msg (n m : Z) : string :=
  "The size of " +:+ dq +:+ "values" +:+ dq +:+
  " must be 1 (a scalar) or longer than pre_size (a vector), while we got " +:+
  str_int n +:+ " != 1 <= " +:+ str_int m.

Definition missing_pre_ids_msg : string :=
  "Must provide " +:+ dq +:+ "pre_ids" +:+ dq +:+ " when " +:+ dq +:+
  "values" +:+ dq +:+ " is not a scalar.".

Section Jax.

(** The configuration flag [jax_enable_x64] of the JAX library, off unless
    the user turns it on. *)
Variable jax_enable_x64 : bool.

(** The dtype that [jnp.asarray] gives its result: without
    [jax_enable_x64] the 64-bit types become the 32-bit ones. *)
Definition canonicalize_dtype (d : dtype) : dtype :=
  if jax_enable_x64 then d
  else match d with
       | float64 => float32
       | int64 => int32
       | uint64 => uint32
       | d => d
       end.

(** [jnp.asarray([values])] for a zero-dimensional [values]: one element,
    of the canonical dtype; a float64 element that becomes a float32 one is
    rounded. *)
Definition asarray_list (values : ndarray float) : ndarray float :=
  let d := canonicalize_dtype (arr_dtype values) in
  mk_ndarray d [1]
    (if dtype_eqb (arr_dtype values) float64 && dtype_eqb d float32
     then map round_float32 (arr_data values)
     else arr_data values).

(** [coo_atomic_sum(values, post_ids, post_num, pre_ids=None)].  A Python
    scalar passed as [values] is seen as the zero-dimensional array it
    converts to. *)
Definition coo_atomic_sum (values : ndarray float) (post_ids : ndarray Z)
    (post_num : Z) (pre_ids : option (ndarray Z)) : result prim_call :=
  (* connections *)
  pre_ids ←
    (if negb (size values =? 1) then
       match pre_ids with
       | Some a => Ok a
       | None => Raise (AssertionError missing_pre_ids_msg)
       end
     else Ok post_ids);
  n_pre ← len pre_ids;
  n_post ← len post_ids;
  if negb (n_pre =? n_post) then Raise (ValueError (length_msg n_pre n_post))
  else if negb (dtype_eqb (arr_dtype pre_ids) (arr_dtype post_ids)) then
    Raise (ValueError (index_dtype_msg (arr_dtype pre_ids) (arr_dtype post_ids)))
  else if negb (existsb (dtype_eqb (arr_dtype post_ids)) [uint32; uint64]) then
    Raise (ValueError (post_dtype_msg (arr_dtype post_ids)))
  else
    (* output value *)
    let values := if ndim values =? 0 then asarray_list values else values in
    if negb (existsb (dtype_eqb (arr_dtype values)) [float32; float64]) then
      Raise (ValueError (values_dtype_msg (arr_dtype values)))
    else
      (if negb (size values =? 1) then
         m ← array_max pre_ids;
         if size values <=? m
         then Raise (ValueError (values_size_msg (size values) m))
         else Ok tt
       else Ok tt);;
      (* bind operator *)
      Ok (mk_prim_call values pre_ids post_ids post_num).

Definition atomic_sum := coo_atomic_sum.

End Jax.

(** An XLA shape: element type and dimensions. *)
Record xla_shape : Type := mk_xla_shape {
  element_type : dtype;
  dimensions : list Z
}.

(** The shape under which [bind] hands an array argument on to the
    translation rule: the dimensions of the array, and its dtype made
    canonical. *)
Definition abstractify {A} (jax_enable_x64 : bool) (a : ndarray A) : xla_shape :=
  mk_xla_shape (canonicalize_dtype jax_enable_x64 (arr_dtype a)) (arr_shape a).

(** A constant handed to [x_ops.ConstantLiteral]: the zero-dimensional
    uint32 array [conn_size], or the Python int [post_num]. *)
Inductive constant : Type :=
| ConstUint32 (n : Z)
| ConstInt (n : Z).

(** The XLA operations that the translation rule handles: its three array
    arguments, which it knows by their shapes only, and the constants that
    it builds. *)
Inductive xla_op : Type :=
| OpValues
| OpPreIds
| OpPostIds
| OpConstant (k : constant).

(** What [x_ops.CustomCallWithLayout] is called with. *)
Record custom_call : Type := mk_custom_call {
  cc_target : string;
  cc_operands : list xla_op;
  cc_operand_shapes : list xla_shape;
  cc_shape : xla_shape;
  cc_opaque : option string
}.

(** [np.array(n, dtype=np.uint32)] for a Python int [n]: the NumPy releases
    that the JAX interface used here goes with keep the low 32 bits. *)
Definition np_uint32 (n : Z) : Z := n mod 2 ^ 32.

(** [dimensions()[0]] of a shape. *)
Definition dimension0 (sh : xla_shape) : result Z :=
  match dimensions sh with
  | n :: _ => Ok n
  | [] => Raise (IndexError "tuple index out of range")
  end.

Section Translation.

(** The XLA client library is outside the sources.  Its functions
    [xla_client.Shape.array_shape] and [x_ops.ConstantLiteral] validate
    their arguments (the first refuses a negative dimension): what they
    raise for an argument, if anything, is a parameter.  [gpu_ops] is the
    module-level name: [None] when the compiled GPU module was not found at
    import, else its function [build_coo_atomic_sum_descriptor]. *)
Variable array_shape_raises : dtype -> list Z -> list Z -> option exn.
Variable constant_literal_raises : constant -> option exn.
Variable gpu_ops : option (Z -> Z -> result string).

(** [x_shape(element_type, dimensions, minor_to_major)] *)
Definition x_shape (d : dtype) (dims layout : list Z) : result xla_shape :=
  match array_shape_raises d dims layout with
  | Some e => Raise e
  | None => Ok (mk_xla_shape d dims)
  end.

(** [x_ops.ConstantLiteral(c, k)] *)
Definition ConstantLiteral (k : constant) : result xla_op :=
  match constant_literal_raises k with
  | Some e => Raise e
  | None => Ok (OpConstant k)
  end.

(** [_atomic_sum_translation(c, values, pre_ids, post_ids, post_num=...,
    platform=...)]: the arguments [values], [pre_ids] and [post_ids] are
    given by what [c.get_shape] returns for them.  The arguments of each
    [CustomCallWithLayout] are evaluated in the order in which they are
    written. *)
Definition _atomic_sum_translation (values pre_ids post_ids : xla_shape)
    (post_num : Z) (platform : string) : result custom_call :=
  (* The conn/post shape *)
  conn_size ← dimension0 post_ids;
  let conn_size := np_uint32 conn_size in
  _conn_shape ← x_shape uint32 [] [];
  _out_shape ← x_shape uint32 [] [];
  (* The indices shape *)
  let Itype := element_type post_ids in
  py_assert (existsb (dtype_eqb Itype) [uint32; uint64]) "";;
  (* The value shape *)
  let values_info := values in
  let values_dtype := element_type values_info in
  py_assert (existsb (dtype_eqb values_dtype) [float32; float64]) "";;
  (* We dispatch a different call depending on the dtype *)
  values_dim0 ← dimension0 values_info;
  let v_type := if values_dim0 =? 1 then "_coo_atomic_sum_homo"
                else "_coo_atomic_sum_heter" in
  let f_type := if dtype_eqb values_dtype float32 then "_f32" else "_f64" in
  let i_type := if dtype_eqb Itype uint32 then "_i32" else "_i64" in
  let target := platform +:+ v_type +:+ f_type +:+ i_type in
  if String.eqb platform "cpu" then
    if negb (values_dim0 =? 1) then
      k_conn ← ConstantLiteral (ConstUint32 conn_size);
      k_post ← ConstantLiteral (ConstInt post_num);
      shape ← x_shape values_dtype [post_num] [0];
      Ok (mk_custom_call target
            [OpValues; OpPreIds; OpPostIds; k_conn; k_post]
            [values; pre_ids; post_ids; _conn_shape; _out_shape]
            shape None)
    else
      k_conn ← ConstantLiteral (ConstUint32 conn_size);
      k_post ← ConstantLiteral (ConstInt post_num);
      shape ← x_shape values_dtype [post_num] [0];
      Ok (mk_custom_call target
            [OpValues; OpPostIds; k_conn; k_post]
            [values; post_ids; _conn_shape; _out_shape]
            shape None)
  else if String.eqb platform "gpu" then
    match gpu_ops with
    | None => Raise (ValueError "Cannot find compiled gpu wheels.")
    | Some build_coo_atomic_sum_descriptor =>
        opaque ← build_coo_atomic_sum_descriptor conn_size post_num;
        if negb (values_dim0 =? 1) then
          shape ← x_shape values_dtype [post_num] [0];
          Ok (mk_custom_call target
                [OpValues; OpPreIds; OpPostIds]
                [values; pre_ids; post_ids]
                shape (Some opaque))
        else
          shape ← x_shape values_dtype [post_num] [0];
          Ok (mk_custom_call target
                [OpValues; OpPostIds]
                [values; post_ids]
                shape (Some opaque))
    end
  else Raise (ValueError
    "Unsupported platform; this must be either 'cpu' or 'gpu'").

End Translation.

(** An XLA client for the examples: shapes with a negative dimension are
    refused, every constant is taken. *)
Definition example_array_shape_raises (d : dtype) (dims layout : list Z)
  : option exn :=
  if forallb (fun n => 0 <=? n) dims then None
  else Some (RuntimeError "Invalid argument: negative dimension").

Definition example_constant_literal_raises (k : constant) : option exn := None.

End AtomicSum.

(** * [npbrain/core_system/synapse_connection.py] *)

Module NpBrain.

(** ** Collaborators of [SynConn] *)

(** A neuron group, as far as [SynConn] reads it: [num], [geometry], [ST]. *)
Record NeuGroup : Type := mk_NeuGroup {
  ng_num : Z;
  ng_geometry : list Z;
  ng_ST : gmap string (list float)
}.

(** What is passed as [pre_group] / [post_group]: a [NeuGroup] or some other
    object ([None] is the [None] of [option]). *)
Inductive group_arg : Type :=
| IsNeuGroup (g : NeuGroup)
| NotNeuGroup (o : pyval).

(** What is passed as [conn]: a [Connector] (known by what calling it
    returns), an [ndarray], a [dict], or some other object. *)
Inductive conn_arg : Type :=
| IsConnector (call : list Z -> list Z -> result (gmap string (list Z)))
| IsArray (a : ndarray Z)
| IsDict (d : gmap string (list Z))
| OtherConn (o : pyval).

(** [d[key]] on a dictionary. *)
Definition getitem (d : gmap string (list Z)) (key : string) : result (list Z) :=
  match d !! key with
  | Some v => Ok v
  | None => Raise (KeyError key)
  end.

(** [np.asarray(l, dtype=np.int_)] for a list of [int]s: every element has
    to fit a signed 64-bit integer. *)
Definition asarray_int (l : list Z) : result (list Z) :=
  if forallb (fun x => (- 2 ^ 63 <=? x) && (x <? 2 ^ 63)) l then Ok l
  else Raise (OverflowError "Python int too large to convert to C long").

(** Modelled from the spec: the grouping behind [pre2syn] and [post2syn] of
    the [connectivity] package, which is missing from the sources.  The
    group of neuron [i] is the ordered sequence of the synapse indices whose
    endpoint is [i]; the order within a group is the order of the edges. *)
Definition synapses_at (ids : list Z) (i : Z) : list Z :=
  map fst (filter (fun ke => Z.eqb (snd ke) i)
             (combine (map Z.of_nat (seq 0 (length ids))) ids)).

(** Modelled from the spec: one group for each of the [n] neurons. *)
Definition group_by_endpoint (ids : list Z) (n : Z) : list (list Z) :=
  map (fun i => synapses_at ids (Z.of_nat i)) (seq 0 (Z.to_nat n)).

(** Modelled from the spec: [pre2syn[i]] is the ordered sequence of synapse
    indices whose presynaptic endpoint is neuron [i]. *)
Definition pre2syn (pre_idx post_idx : list Z) (pre_num : Z) : list (list Z) :=
  group_by_endpoint pre_idx pre_num.

(** Modelled from the spec: [post2syn[j]] is the ordered sequence of synapse
    indices whose postsynaptic endpoint is neuron [j]. *)
Definition post2syn (pre_idx post_idx : list Z) (post_num : Z) : list (list Z) :=
  group_by_endpoint post_idx post_num.

(** Modelled from the spec: [SynState] of [types.py], which is missing from
    the sources.  A synapse state has its variables, its size, and a ring of
    [delay_len + 1] slots with a write cursor [delay_in] and a read cursor
    [delay_out] that trails it by [delay_len] slots. *)
Record SynState : Type := mk_SynState {
  st_vars : pyval;
  st_size : Z;
  st_delay_len : Z;
  delay_in : Z;
  delay_out : Z
}.

(** Modelled from the spec: [SynState(vars)(size=size, delay=delay)]; the
    write cursor starts [delay] slots ahead of the read cursor. *)
Definition SynState_create (vars : pyval) (size delay : Z) : SynState :=
  mk_SynState vars size delay delay 0.

(** Modelled from the spec: [SynState._update_delay_indices], the [advance]
    operation: both cursors move forward by one slot modulo
    [delay_len + 1]. *)
Definition _update_delay_indices (st : SynState) : SynState :=
  mk_SynState (st_vars st) (st_size st) (st_delay_len st)
    ((delay_in st + 1) mod (st_delay_len st + 1))
    ((delay_out st + 1) mod (st_delay_len st + 1)).

(** ** [SynConn] *)

(** The attributes set in the branch with a pre- and a post-group. *)
Record wiring : Type := mk_wiring {
  w_pre2syn : list (list Z);
  w_post2syn : list (list Z);
  pre_ids : list Z;
  post_ids : list Z;
  pre : gmap string (list float);
  post : gmap string (list float)
}.

(** Modelled from the spec: [BaseEnsemble] of [base_objects.py], which is
    missing from the sources.  A population has a [name], its element count
    [num], set once at construction, and the model arguments. *)
Record BaseEnsemble : Type := mk_BaseEnsemble {
  name : string;
  num : Z;
  create_func : pyval;
  monitors : pyval;
  vars_init : pyval;
  pars_update : pyval
}.

(** Modelled from the spec: [BaseEnsemble.__init__] stores what it is
    given. *)
Definition BaseEnsemble_init (create_func : pyval) (name : string) (num : Z)
    (pars_update vars_init monitors : pyval) : BaseEnsemble :=
  mk_BaseEnsemble name num create_func monitors vars_init pars_update.

(** [SynState(self.vars_init)(size=self.num, delay=delay_len)] *)
Definition SynState_of (self : BaseEnsemble) (delay_len : Z) : SynState :=
  SynState_create (vars_init self) (num self) delay_len.

(** A constructed [SynConn]: the attributes of the base class and the ones
    that [SynConn.__init__] sets. *)
Record SynConn : Type := mk_SynConn {
  base :> BaseEnsemble;
  pre_group : option group_arg;
  post_group : option group_arg;
  wires : option wiring;
  delay_len : Z;
  ST : SynState
}.

(** The arguments of [SynConn.__init__]. *)
Record init_args : Type := mk_init_args {
  a_create_func : pyval;
  a_delay : pyval;
  a_pre_group : option group_arg;
  a_post_group : option group_arg;
  a_conn : option conn_arg;
  a_num : option Z;
  a_monitors : pyval;
  a_vars_init : pyval;
  a_pars_update : pyval;
  a_name : option string
}.

Definition not_2d_msg (nd : Z) : string :=
  dq +:+ "conn" +:+ dq +:+ " must be a 2D array, not " +:+ str_int nd +:+ "D.".

Definition conn_shape_msg (pre_num post_num : Z) : string :=
  "The shape of " +:+ dq +:+ "conn" +:+ dq +:+ " must be (" +:+
  str_int pre_num +:+ ", " +:+ str_int post_num +:+ ")".

(** [enumerate(n)] for an [int] [n]: an [int] is not iterable, the call
    raises and the loop over its items never starts. *)
Definition enumerate_int (n : Z) : result (list Z) :=
  Raise (TypeError "'int' object is not iterable").

(** Row [i] of a two-dimensional array, [conn[i]]. *)
Definition row (conn : ndarray Z) (i : Z) : list Z :=
  let cols := Z.to_nat (nth 1 (arr_shape conn) 0) in
  take cols (drop (Z.to_nat i * cols) (arr_data conn)).

(** [np.where(r > 0)[0]] *)
Definition where_positive (r : list Z) : list Z :=
  map fst (filter (fun ke => 0 <? snd ke)
             (combine (map Z.of_nat (seq 0 (length r))) r)).

(** The body of the loop over the rows of a connection matrix, written for
    an integer loop variable [i]:
    [idx = np.where(conn[i] > 0)[0]],
    [pre_idx.extend([i * len(idx)])], [post_idx.extend(idx)]. *)
Definition matrix_row (conn : ndarray Z) (acc : list Z * list Z) (i : Z)
  : list Z * list Z :=
  let '(pre_idx, post_idx) := acc in
  let idx := where_positive (row conn i) in
  (pre_idx ++ [i * Z.of_nat (length idx)], post_idx ++ idx).

(** The branch [isinstance(conn, np.ndarray)] of the constructor. *)
Definition matrix_edges (pre_num post_num : Z) (conn : ndarray Z)
  : result (list Z * list Z) :=
  py_assert (ndim conn =? 2) (not_2d_msg (ndim conn));;
  let conn_shape := arr_shape conn in
  py_assert ((nth 0 conn_shape 0 =? pre_num) && (nth 1 conn_shape 0 =? post_num))
    (conn_shape_msg pre_num post_num);;
  items ← enumerate_int pre_num;
  let '(pre_idx, post_idx) := fold_left (matrix_row conn) items ([], []) in
  pre_idx ← asarray_int pre_idx;
  post_idx ← asarray_int post_idx;
  Ok (pre_idx, post_idx).

(** The branch for a [dict] with the items ['i'] and ['j']. *)
Definition dict_edges (d : gmap string (list Z)) : result (list Z * list Z) :=
  py_assert (bool_decide (is_Some (d !! "i")))
    (dq +:+ "conn" +:+ dq +:+ " must provide " +:+ dq +:+ "i" +:+ dq +:+ " item.");;
  py_assert (bool_decide (is_Some (d !! "j")))
    (dq +:+ "conn" +:+ dq +:+ " must provide " +:+ dq +:+ "j" +:+ dq +:+ " item.");;
  i ← getitem d "i";
  pre_idx ← asarray_int i;
  j ← getitem d "j";
  post_idx ← asarray_int j;
  Ok (pre_idx, post_idx).

(** The part of the constructor that runs when both groups are given:
    checks, edges, and the attributes derived from them. *)
Definition connect (pre_group post_group : group_arg) (conn : option conn_arg)
  : result wiring :=
  pre_group ←
    match pre_group with
    | IsNeuGroup g => Ok g
    | NotNeuGroup _ => Raise (AssertionError
        (dq +:+ "pre" +:+ dq +:+ " must be an instance of NeuGroup."))
    end;
  post_group ←
    match post_group with
    | IsNeuGroup g => Ok g
    | NotNeuGroup _ => Raise (AssertionError
        (dq +:+ "post" +:+ dq +:+ " must be an instance of NeuGroup."))
    end;
  conn ←
    match conn with
    | Some c => Ok c
    | None => Raise (AssertionError (dq +:+ "conn" +:+ dq +:+ " must be provided."))
    end;
  edges ←
    match conn with
    | IsConnector call =>
        conn_res ← call (ng_geometry pre_group) (ng_geometry post_group);
        i ← getitem conn_res "i";
        j ← getitem conn_res "j";
        Ok (i, j)
    | IsArray c => matrix_edges (ng_num pre_group) (ng_num post_group) c
    | IsDict d => dict_edges d
    | OtherConn _ => Raise (AssertionError
        (dq +:+ "conn" +:+ dq +:+ " only support " +:+ dq +:+ "dict" +:+ dq +:+
         " or a 2D " +:+ dq +:+ "array" +:+ dq +:+ "."))
    end;
  let '(pre_idx, post_idx) := edges in
  Ok (mk_wiring
        (pre2syn pre_idx post_idx (ng_num pre_group))
        (post2syn pre_idx post_idx (ng_num post_group))
        pre_idx post_idx (ng_ST pre_group) (ng_ST post_group)).

(** The conversion of [delay] into a number of steps; [dt] is what
    [profile.get_dt()] returns.  [delay] and [dt] are Python numbers, whose
    division by zero raises; NumPy scalars, which divide to an infinity or
    a NaN instead, are not among the values modelled. *)
Definition init_delay_len (delay : pyval) (dt : float) : result Z :=
  match delay with
  | PyNone => Ok 0
  | PyInt n =>
      d ← float_of_int n;
      q ← py_truediv d dt;
      int_of_ceil q
  | PyFloat d =>
      q ← py_truediv d dt;
      int_of_ceil q
  | PyStr _ | PyObj _ => Raise (ValueError
      "NumpyBrain currently doesn't support other kinds of delay.")
  end.

Definition num_msg : string :=
  "Total synapse number " +:+ dq +:+ "num" +:+ dq +:+
  " must be a valid number in " +:+ dq +:+ "uint64" +:+ dq +:+ ".".

(** [SynConn.__init__].  The module counter [_SYN_NO] is threaded through:
    the result is its new value and the outcome of the construction. *)
Definition SynConn_init (a : init_args) (dt : float) (_SYN_NO : Z)
  : Z * result SynConn :=
  (* name *)
  let '(name, _SYN_NO) :=
    match a_name a with
    | None => ("SynConn" +:+ str_int _SYN_NO, _SYN_NO + 1)
    | Some name => (name, _SYN_NO)
    end in
  (_SYN_NO,
   (* pre or post neuron group *)
   wn ←
     match a_pre_group a, a_post_group a with
     | Some pre_group, Some post_group =>
         w ← connect pre_group post_group (a_conn a);
         Ok (Some w, Z.of_nat (length (pre_ids w)))
     | _, _ =>
         match a_num a with
         | Some num => Ok (None, num)
         | None => Raise (AssertionError
             (dq +:+ "num" +:+ dq +:+ " must be provided when " +:+ dq +:+
              "pre" +:+ dq +:+ " and " +:+ dq +:+ "post" +:+ dq +:+ " are none."))
         end
     end;
   let '(wires, num) := wn in
   py_assert ((0 <? num) && (num <? 2 ^ 64)) num_msg;;
   (* delay *)
   delay_len ← init_delay_len (a_delay a) dt;
   (* initialize, ST *)
   let self := BaseEnsemble_init (a_create_func a) name num (a_pars_update a)
                 (a_vars_init a) (a_monitors a) in
   Ok (mk_SynConn self (a_pre_group a) (a_post_group a) wires delay_len
         (SynState_of self delay_len))).

Section Ensemble.

(** [BaseEnsemble._merge_steps] and [BaseEnsemble._keywords] are not part of
    the sources: they are parameters.  A method may change the object it is
    called on, so the first returns the object as well. *)
Variable base_merge_steps : SynConn -> SynConn * list string.
Variable base_keywords : SynConn -> list string.

(** [SynConn._merge_steps] *)
Definition _merge_steps (self : SynConn) : SynConn * list string :=
  let '(self, codes_of_calls) := base_merge_steps self in
  (self, codes_of_calls ++ [name self +:+ ".ST._update_delay_indices()"]).

(** [SynConn._keywords] *)
Definition _keywords (self : SynConn) : list string :=
  base_keywords self ++ ["delay_len"].

(** The operations of the ensemble after its construction. *)
Inductive operation : Type :=
| DoMergeSteps
| DoKeywords.

Definition after_operation (self : SynConn) (o : operation) : SynConn :=
  match o with
  | DoMergeSteps => fst (_merge_steps self)
  | DoKeywords => self
  end.

End Ensemble.

(** Where the state of an ensemble stands in its ring of delay slots. *)
Definition same_cursors (st st' : SynState) : Prop :=
  delay_in st' = delay_in st /\ delay_out st' = delay_out st /\
  st_delay_len st' = st_delay_len st.

(** [s.endswith(suffix)], with the part of [s] before the suffix. *)
Fixpoint strip_suffix (suffix s : string) : option string :=
  if String.eqb s suffix then Some EmptyString
  else match s with
       | EmptyString => None
       | String a s' => option_map (String a) (strip_suffix suffix s')
       end.

(** Modelled from the spec: one simulation step runs the entries of the plan
    in order (the scheduler of [network.py] is missing from the sources).
    An entry is the text of a call.  The text
    [<name>.ST._update_delay_indices()] calls the [advance] operation on the
    state of the ensemble bound to [<name>], and fails when there is none;
    what any other entry does to the states of the ensembles is the
    parameter [model_step]. *)
Definition run_entry
    (model_step : string -> gmap string SynState -> gmap string SynState)
    (ensembles : gmap string SynState) (entry : string)
  : result (gmap string SynState) :=
  match strip_suffix ".ST._update_delay_indices()" entry with
  | Some obj =>
      match ensembles !! obj with
      | Some st => Ok (<[obj := _update_delay_indices st]> ensembles)
      | None => Raise (NameError ("name '" +:+ obj +:+ "' is not defined"))
      end
  | None => Ok (model_step entry ensembles)
  end.

(** Modelled from the spec: the entries of a plan run one after the other,
    up to the first that fails. *)
Fixpoint run_plan
    (model_step : string -> gmap string SynState -> gmap string SynState)
    (plan : list string) (ensembles : gmap string SynState)
  : result (gmap string SynState) :=
  match plan with
  | [] => Ok ensembles
  | entry :: plan =>
      ensembles ← run_entry model_step ensembles entry;
      run_plan model_step plan ensembles
  end.

(** ** [post_cond_by_post2syn] *)

(** One element [a[k]] of an index array applied to [a]: negative indices
    count from the end. *)
Definition index1 (a : list float) (k : Z) : result float :=
  let n := Z.of_nat (length a) in
  let k' := if k <? 0 then k + n else k in
  if (0 <=? k') && (k' <? n) then Ok (nth (Z.to_nat k') a float_zero)
  else Raise (IndexError
    ("index " +:+ str_int k +:+ " is out of bounds for axis 0 with size " +:+
     str_int n)).

(** [a[idx]] for a sequence of indices [idx]: the array of the selected
    elements. *)
Fixpoint fancy_index (a : list float) (idx : list Z) : result (list float) :=
  match idx with
  | [] => Ok []
  | k :: idx' =>
      x ← index1 a k;
      xs ← fancy_index a idx';
      Ok (x :: xs)
  end.

(** [g[i] = v] where [g] is a one-dimensional float array and [v] an array:
    only an array of exactly one element converts to the scalar stored, and
    the position has to exist. *)
Definition setitem_array (g : list float) (i : nat) (v : list float)
  : result (list float) :=
  match v with
  | [x] =>
      if (i <? length g)%nat then Ok (<[i := x]> g)
      else Raise (IndexError
        ("index " +:+ str_int (Z.of_nat i) +:+
         " is out of bounds for axis 0 with size " +:+
         str_int (Z.of_nat (length g))))
  | _ => Raise (ValueError "setting an array element with a sequence.")
  end.

(** The loop [for i in range(num_post)], from position [i] on. *)
Fixpoint post_cond_loop (syn_val : list float) (groups : list (list Z))
    (i : nat) (g_val : list float) : result (list float) :=
  match groups with
  | [] => Ok g_val
  | syn_idx :: groups' =>
      v ← fancy_index syn_val syn_idx;
      g_val ← setitem_array g_val i v;
      post_cond_loop syn_val groups' (S i) g_val
  end.

(** [post_cond_by_post2syn(syn_val, post2syn)] *)
Definition post_cond_by_post2syn (syn_val : list float)
    (post2syn : list (list Z)) : result (list float) :=
  let num_post := length post2syn in
  let g_val := replicate num_post float_zero in
  post_cond_loop syn_val post2syn 0 g_val.

(** ** [delay_push] and [delay_pull] *)

(** A function object, as far as the two decorators touch it: its
    [__name__]; [fn_code] stands for the rest of the object. *)
Record function : Type := mk_function {
  __name__ : string;
  fn_code : pyval
}.

(** [delay_push(func)]: the object it is given, renamed. *)
Definition delay_push (func : function) : function :=
  mk_function ("_npbrain_delay_push_" +:+ __name__ func) (fn_code func).

(** [delay_pull(func)] *)
Definition delay_pull (func : function) : function :=
  mk_function ("_npbrain_delay_pull_" +:+ __name__ func) (fn_code func).

End NpBrain.

(** * Properties *)

(** ** Strings *)

Lemma starts_with_append (p s : string) : starts_with p (p +:+ s) = true.
Proof.
  induction p as [|a p IH]; simpl; [reflexivity|].
  rewrite Ascii.eqb_refl. exact IH.
Qed.

Lemma includes_prefix (p s : string) : includes p (p +:+ s) = true.
Proof.
  assert (H : starts_with p (p +:+ s) = true) by apply starts_with_append.
  destruct (p +:+ s); simpl in *; rewrite H; reflexivity.
Qed.

Lemma includes_append (p a s : string) :
  includes p s = true -> includes p (a +:+ s) = true.
Proof.
  intros H. induction a as [|c a IH]; simpl; [exact H|].
  rewrite IH. apply orb_true_r.
Qed.

Lemma includes_middle (p a s : string) : includes p (a +:+ p +:+ s) = true.
Proof. apply includes_append, includes_prefix. Qed.

(** ** Floats *)

Example float_0_1_is_1_div_10 :
  (ten ← float_of_int 10; py_truediv float_1 ten) = Ok float_0_1.
Proof. vm_compute. reflexivity. Qed.

Lemma int_of_ceil_is_ceiling (x : float) (k : Z) :
  int_of_ceil x = Ok k -> is_ceiling x k.
Proof.
  destruct x as [s|s| |s m e]; cbn [int_of_ceil is_ceiling]; try discriminate.
  - intros [= <-]. reflexivity.
  - intros [= <-]. destruct (0 <=? e) eqn:He; [reflexivity|].
    apply Z.leb_gt in He.
    set (v := if s then Z.neg m else Z.pos m).
    assert (Hd : 0 < 2 ^ (- e)) by (apply Z.pow_pos_nonneg; lia).
    pose proof (Z.div_mod (- v) (2 ^ (- e)) ltac:(lia)) as Hdm.
    pose proof (Z.mod_pos_bound (- v) (2 ^ (- e)) Hd) as Hb.
    nia.
Qed.

Lemma int_of_ceil_nonneg (x : float) (k : Z) :
  not_negative x = true -> int_of_ceil x = Ok k -> 0 <= k.
Proof.
  destruct x as [s|s| |s m e]; cbn [int_of_ceil not_negative]; try discriminate.
  - intros _ [= <-]. lia.
  - destruct s; [discriminate|]. intros _ [= <-].
    destruct (0 <=? e) eqn:He.
    + apply Z.leb_le in He. pose proof (Z.pow_nonneg 2 e). nia.
    + apply Z.leb_gt in He.
      assert (Hd : 0 < 2 ^ (- e)) by (apply Z.pow_pos_nonneg; lia).
      pose proof (Z.div_mod (- Z.pos m) (2 ^ (- e)) ltac:(lia)) as Hdm.
      pose proof (Z.mod_pos_bound (- Z.pos m) (2 ^ (- e)) Hd) as Hb.
      nia.
Qed.

(** Rounding keeps the sign it is given. *)
Lemma binary_round_aux_not_negative (mx ex : Z) (lx : location) :
  not_negative (binary_round_aux prec emax false mx ex lx) = true.
Proof.
  unfold binary_round_aux.
  destruct (shr_fexp prec emax mx ex lx) as [mrs' e'].
  destruct (shr_fexp prec emax _ e' loc_Exact) as [mrs'' e''].
  destruct (shr_m mrs''); [reflexivity| |reflexivity].
  destruct (e'' <=? emax - prec); reflexivity.
Qed.

Lemma float_leb_zero (d : float) :
  float_leb float_zero d = true -> not_negative d = true.
Proof. destruct d as [s|s| |s m e]; try destruct s; cbn; congruence. Qed.

Lemma float_ltb_zero (d : float) :
  float_ltb float_zero d = true ->
  not_negative d = true /\ float_is_zero d = false.
Proof.
  destruct d as [s|s| |s m e]; try destruct s; cbn; intros H; split;
    congruence.
Qed.

Lemma float_div_not_negative (d dt : float) :
  not_negative d = true -> not_negative dt = true ->
  float_is_zero dt = false ->
  not_negative (float_div d dt) = true.
Proof.
  unfold float_div, SFdiv.
  destruct d as [s|s| |s m e], dt as [s'|s'| |s' m' e'];
    try destruct s; try destruct s';
    cbn [not_negative negb xorb float_is_zero]; try discriminate;
    intros _ _ _; try reflexivity.
  destruct (SFdiv_core_binary prec emax (Z.pos m) e (Z.pos m') e')
    as [[mz ez] lz].
  apply binary_round_aux_not_negative.
Qed.

Lemma float_of_int_not_negative (n : Z) (d : float) :
  0 <= n -> float_of_int n = Ok d -> not_negative d = true.
Proof.
  unfold float_of_int, binary_normalize. intros Hn.
  destruct n as [|m|m]; [intros [= <-]; reflexivity| |lia].
  unfold binary_round.
  destruct (shl_align m 0 _) as [mz ez].
  pose proof (binary_round_aux_not_negative (Z.pos mz) ez loc_Exact) as H.
  destruct (binary_round_aux prec emax false (Z.pos mz) ez loc_Exact);
    try discriminate; intros [= <-]; exact H.
Qed.

(** ** [brainpy.math]: [dt] and the backend name *)

Module BrainpyMathFacts.
Import BrainpyMath.

Lemma replace_operation_other (k : string) (item : string * pyval) (g : globals) :
  skipped (fst item) = true \/ fst item <> k ->
  replace_operation g item !! k = g !! k.
Proof.
  destruct item as [key value]. unfold replace_operation.
  cbn [fst]. intros H.
  destruct (skipped key); [reflexivity|].
  apply lookup_insert_ne. destruct H as [H|H]; [discriminate|exact H].
Qed.

(** A name that the loop of [use_backend] skips is never rebound by it. *)
Lemma replace_operations_skipped (k : string) (items : list (string * pyval))
    (g : globals) :
  skipped k = true ->
  fold_left replace_operation items g !! k = g !! k.
Proof.
  intros Hk. revert g.
  induction items as [|item items IH]; intros g; cbn [fold_left];
    [reflexivity|].
  rewrite IH. apply replace_operation_other.
  destruct (String.eqb_spec (fst item) k) as [->|Hne]; [left|right]; assumption.
Qed.

(** A name that no item of the module carries keeps its binding. *)
Lemma replace_operations_absent (k : string) (items : list (string * pyval))
    (g : globals) :
  ~ In k (map fst items) ->
  fold_left replace_operation items g !! k = g !! k.
Proof.
  revert g.
  induction items as [|item items IH]; intros g Hk; cbn [fold_left];
    [reflexivity|].
  cbn [map In] in Hk. rewrite IH by tauto.
  apply replace_operation_other. right. tauto.
Qed.

(** With unique keys, as the items of a dictionary have, a key that the
    loop does not skip ends bound to the module's value. *)
Lemma replace_operations_bound (items : list (string * pyval)) (k : string)
    (v : pyval) (g : globals) :
  NoDup (map fst items) -> In (k, v) items -> skipped k = false ->
  fold_left replace_operation items g !! k = Some v.
Proof.
  revert g. induction items as [|[key value] items IH]; intros g Hnd Hin Hs;
    [contradiction|].
  cbn [map fst] in Hnd. apply NoDup_cons in Hnd as [Hkey Hnd].
  cbn [fold_left]. destruct Hin as [[= -> ->]|Hin].
  - rewrite replace_operations_absent.
    + unfold replace_operation. rewrite Hs. apply lookup_insert_eq.
    + intros Hk. apply Hkey. apply list_elem_of_In. exact Hk.
  - apply IH; assumption.
Qed.

Section Backends.
Variable object_dict : pyval -> result (list (string * pyval)).
Variable import_submodule : string -> result pyval.

(** The import binds the name it imports, and no other. *)
Lemma from_import_other (name k : string) (g : globals) :
  k <> name ->
  fst (from_import import_submodule name g) !! k = g !! k.
Proof.
  intros Hk. unfold from_import.
  destruct (g !! name); [reflexivity|].
  destruct (import_submodule name); [|reflexivity].
  cbn [fst]. apply lookup_insert_ne. congruence.
Qed.


Lemma select_module_known (nm : string) (g : globals) :
  nm = "numpy" \/ nm = "numba" \/ nm = "jax" ->
  select_module import_submodule nm g = from_import import_submodule nm g.
Proof. intros [-> | [-> | ->]]; reflexivity. Qed.

Lemma select_module_cases (nm : string) (g : globals) :
  select_module import_submodule nm g
    = (g, Raise (ValueError (unknown_backend_msg nm))) \/
  (nm = "numpy" \/ nm = "numba" \/ nm = "jax") /\
  select_module import_submodule nm g = from_import import_submodule nm g.
Proof.
  unfold select_module.
  destruct (String.eqb_spec nm "numpy") as [->|_]; [right; tauto|].
  destruct (String.eqb_spec nm "numba") as [->|_]; [right; tauto|].
  destruct (String.eqb_spec nm "jax") as [->|_]; [right; tauto|].
  left. reflexivity.
Qed.

(** The selection rebinds at most one of the three backend names. *)
Lemma select_module_other (nm k : string) (g : globals) :
  k <> "numpy" -> k <> "numba" -> k <> "jax" ->
  fst (select_module import_submodule nm g) !! k = g !! k.
Proof.
  intros H1 H2 H3.
  destruct (select_module_cases nm g) as [->|[Hnm ->]]; [reflexivity|].
  apply from_import_other. destruct Hnm as [-> | [-> | ->]]; assumption.
Qed.

(** The module that a call with one of the three names selects: the value
    bound to the name, or the imported submodule. *)
Lemma select_module_selected (nm : string) (g : globals) (module : pyval) :
  nm = "numpy" \/ nm = "numba" \/ nm = "jax" ->
  g !! nm = Some module \/ g !! nm = None /\ import_submodule nm = Ok module ->
  select_module import_submodule nm g = (<[nm := module]> g, Ok module).
Proof.
  intros Hnm Hm. rewrite select_module_known by exact Hnm.
  unfold from_import. destruct Hm as [Hm|[Hm Hi]].
  - rewrite Hm. rewrite insert_id by exact Hm. reflexivity.
  - rewrite Hm, Hi. reflexivity.
Qed.

(** The globals after a call that found its module and the module's items. *)
Lemma use_backend_selected (nm : string) (g : globals) (module : pyval)
    (items : list (string * pyval)) :
  nm = "numpy" \/ nm = "numba" \/ nm = "jax" ->
  g !! nm = Some module \/ g !! nm = None /\ import_submodule nm = Ok module ->
  object_dict module = Ok items ->
  use_backend object_dict import_submodule nm g
  = (fold_left replace_operation items
       (<["BACKEND_NAME" := PyStr nm]> (<[nm := module]> g)), Ok tt).
Proof.
  intros Hnm Hm Hitems. unfold use_backend.
  rewrite (select_module_selected nm g module Hnm Hm), Hitems. reflexivity.
Qed.

Lemma use_backend_keeps_dt (nm : string) (g : globals) :
  fst (use_backend object_dict import_submodule nm g) !! "__dt" = g !! "__dt".
Proof.
  unfold use_backend.
  pose proof (select_module_other nm "__dt" g) as Hsel.
  destruct (select_module import_submodule nm g) as [g1 [module|e]];
    cbn [fst] in *; [|apply Hsel; discriminate].
  destruct (object_dict module) as [items|e]; cbn [fst].
  - rewrite replace_operations_skipped by reflexivity.
    rewrite lookup_insert_ne by discriminate. apply Hsel; discriminate.
  - rewrite lookup_insert_ne by discriminate. apply Hsel; discriminate.
Qed.

Lemma after_calls_keep_dt (cs : list call) (g : globals) :
  forallb (fun c => negb (is_set_dt c)) cs = true ->
  after_calls object_dict import_submodule g cs !! "__dt" = g !! "__dt".
Proof.
  unfold after_calls. revert g.
  induction cs as [|c cs IH]; intros g Hcs; simpl in *; [reflexivity|].
  apply andb_prop in Hcs as [Hc Hcs]. rewrite IH by exact Hcs.
  destruct c; simpl in *; try reflexivity; [discriminate|].
  apply use_backend_keeps_dt.
Qed.

End Backends.

(** C8.  The integration step is settable and gettable: after
    [set_dt(x)] with a float [x], [get_dt()] returns [x] after any further
    calls of the module other than [set_dt]; after the import, and before
    any [set_dt], [get_dt()] returns the default 0.1; [set_dt] rejects an
    argument that is not a float with an [AssertionError] and leaves the
    globals as they were. *)
Theorem set_dt_get_dt
    (object_dict : pyval -> result (list (string * pyval)))
    (import_submodule : string -> result pyval)
    (others g : globals) (x : float) (v : pyval) (cs : list call) :
  forallb (fun c => negb (is_set_dt c)) cs = true ->
  isinstance_float v = false ->
  (snd (set_dt (PyFloat x) g) = Ok tt /\
   get_dt (after_calls object_dict import_submodule
             (fst (set_dt (PyFloat x) g)) cs) = Ok (PyFloat x)) /\
  get_dt (after_calls object_dict import_submodule
            (module_globals others) cs) = Ok (PyFloat float_0_1) /\
  set_dt v g = (g, Raise (AssertionError "")).
Proof.
  intros Hcs Hv. repeat split.
  - unfold get_dt, read_global. rewrite after_calls_keep_dt by exact Hcs.
    simpl. rewrite lookup_insert_eq. reflexivity.
  - unfold get_dt, read_global. rewrite after_calls_keep_dt by exact Hcs.
    unfold module_globals.
    rewrite lookup_insert_ne by discriminate.
    rewrite lookup_insert_eq. reflexivity.
  - unfold set_dt. rewrite Hv. reflexivity.
Qed.

Lemma set_dt_get_dt_witness :
  let cs := [CallGetDt; CallUseBackend "jax"; CallGetBackendName;
             CallUseBackend "torch"; CallGetDsDriver None;
             CallUseBackend "jax"; CallUseBackend "numpy"] in
  forallb (fun c => negb (is_set_dt c)) cs = true /\
  isinstance_float (PyInt 1) = false /\
  (snd (set_dt (PyFloat float_1) ∅) = Ok tt /\
   get_dt (after_calls example_dict example_import
             (fst (set_dt (PyFloat float_1) ∅)) cs) = Ok (PyFloat float_1)) /\
  get_dt (after_calls example_dict example_import (module_globals ∅) cs)
    = Ok (PyFloat float_0_1) /\
  set_dt (PyInt 1) ∅ = (∅, Raise (AssertionError "")).
Proof.
  intros cs.
  split; [reflexivity|]. split; [reflexivity|].
  apply (set_dt_get_dt example_dict example_import ∅ ∅ float_1 (PyInt 1) cs);
    reflexivity.
Defined.




End BrainpyMathFacts.

(** ** [coo_atomic_sum] *)

Module AtomicSumFacts.
Import AtomicSum.

Lemma dtype_eqb_eq (a b : dtype) : dtype_eqb a b = true <-> a = b.
Proof. destruct a, b; simpl; split; intros H; congruence. Qed.

Lemma dtype_eqb_refl (a : dtype) : dtype_eqb a a = true.
Proof. destruct a; reflexivity. Qed.

(** A zero-dimensional array has one element. *)
Lemma ndim_0_size {A} (a : ndarray A) : ndim a = 0 -> size a = 1.
Proof.
  unfold ndim, size. destruct (arr_shape a); simpl; [reflexivity|lia].
Qed.

(** The array that the size and dtype checks of [values] look at. *)
Lemma size_after_wrap (x64 : bool) (values : ndarray float) :
  size (if ndim values =? 0 then asarray_list x64 values else values)
  = size values.
Proof.
  destruct (ndim values =? 0) eqn:E; [|reflexivity].
  apply Z.eqb_eq, ndim_0_size in E. rewrite E. reflexivity.
Qed.

Ltac case_if :=
  match goal with
  | |- context [if ?b then _ else _] => destruct b eqn:?
  end.

(** What the checks of [coo_atomic_sum] depend on: for two destination
    arrays of the same dtype and shape, and two destination counts, the
    outcomes agree up to the arguments handed to the primitive. *)
Lemma coo_atomic_sum_checks (x64 : bool) (values : ndarray float)
    (post_ids post_ids' : ndarray Z) (post_num post_num' : Z)
    (pre_ids : option (ndarray Z)) :
  arr_dtype post_ids' = arr_dtype post_ids ->
  arr_shape post_ids' = arr_shape post_ids ->
  match coo_atomic_sum x64 values post_ids post_num pre_ids,
        coo_atomic_sum x64 values post_ids' post_num' pre_ids with
  | Ok c, Ok c' =>
      pc_values c = pc_values c' /\
      pc_post_ids c = post_ids /\ pc_post_ids c' = post_ids' /\
      pc_post_num c = post_num /\ pc_post_num c' = post_num'
  | Raise e, Raise e' => e = e'
  | _, _ => False
  end.
Proof.
  intros Hd Hs. unfold coo_atomic_sum, len.
  rewrite !size_after_wrap.
  destruct (size values =? 1) eqn:Hsize; cbn [negb].
  - cbn [mbind result_bind]. rewrite Hd, Hs.
    destruct (arr_shape post_ids) as [|n sh]; [reflexivity|].
    cbn [mbind result_bind].
    rewrite Z.eqb_refl, dtype_eqb_refl. cbn [negb].
    repeat (case_if; try reflexivity); cbn [mbind result_bind]; repeat split.
  - destruct pre_ids as [pre_ids|]; [|reflexivity].
    cbn [mbind result_bind]. rewrite Hd, Hs.
    destruct (arr_shape pre_ids) as [|n sh]; [reflexivity|].
    destruct (arr_shape post_ids) as [|n' sh']; [reflexivity|].
    cbn [mbind result_bind].
    repeat (case_if; try reflexivity);
      (destruct (array_max pre_ids) as [m|e]; cbn [mbind result_bind];
       [|reflexivity]);
      (case_if; cbn [mbind result_bind]; [reflexivity|]); repeat split.
Qed.

(** C3, as the code has it.  [coo_atomic_sum] never compares the entries of
    [post_ids] with [post_num]: which exception it raises, if any, is the
    same for every destination count and for every destination array of the
    same dtype and shape; a call that passes the checks hands [post_ids] and
    [post_num] to the primitive as they are, and the declared output has
    shape [(post_num,)]. *)
Theorem coo_atomic_sum_no_range_check (x64 : bool) (values : ndarray float)
    (post_ids post_ids' : ndarray Z) (post_num post_num' : Z)
    (pre_ids : option (ndarray Z)) :
  arr_dtype post_ids' = arr_dtype post_ids ->
  arr_shape post_ids' = arr_shape post_ids ->
  (forall e, coo_atomic_sum x64 values post_ids post_num pre_ids = Raise e <->
             coo_atomic_sum x64 values post_ids' post_num' pre_ids = Raise e) /\
  (forall c, coo_atomic_sum x64 values post_ids post_num pre_ids = Ok c ->
             pc_post_ids c = post_ids /\
             _atomic_sum_abstract c = (arr_dtype (pc_values c), [post_num])).
Proof.
  intros Hd Hs.
  pose proof (coo_atomic_sum_checks x64 values post_ids post_ids' post_num post_num'
                pre_ids Hd Hs) as H.
  destruct (coo_atomic_sum x64 values post_ids post_num pre_ids) as [c|e0],
           (coo_atomic_sum x64 values post_ids' post_num' pre_ids) as [c'|e0'];
    try contradiction.
  - split; [intros e; split; discriminate|].
    intros c0 [= <-]. destruct H as (_ & H1 & _ & H2 & _).
    unfold _atomic_sum_abstract. rewrite H1, H2. split; reflexivity.
  - subst e0'. split; [tauto|]. discriminate.
Qed.

Lemma coo_atomic_sum_no_range_check_witness :
  let values := array1 float32 [float_1; float_2; float_3] in
  let pre_ids := array1 uint32 [0; 1; 2] in
  let post_ids := array1 uint32 [0; 5; 0] in
  let post_ids' := array1 uint32 [0; 1; 0] in
  (forall e, coo_atomic_sum false values post_ids 2 (Some pre_ids) = Raise e <->
             coo_atomic_sum false values post_ids' 6 (Some pre_ids) = Raise e) /\
  (forall c, coo_atomic_sum false values post_ids 2 (Some pre_ids) = Ok c ->
             pc_post_ids c = post_ids /\
             _atomic_sum_abstract c = (arr_dtype (pc_values c), [2])).
Proof.
  intros values pre_ids post_ids post_ids'.
  apply (coo_atomic_sum_no_range_check false values post_ids post_ids' 2 6
           (Some pre_ids)); reflexivity.
Defined.

(** C3, as stated, fails: with the destination id 5 and the destination
    count 2 the call raises nothing and reaches the primitive. *)
Lemma coo_atomic_sum_out_of_range_accepted :
  let values := array1 float32 [float_1; float_2; float_3] in
  let pre_ids := array1 uint32 [0; 1; 2] in
  let post_ids := array1 uint32 [0; 5; 0] in
  In 5 (arr_data post_ids) /\ 2 <= 5 /\
  coo_atomic_sum false values post_ids 2 (Some pre_ids)
    = Ok (mk_prim_call values pre_ids post_ids 2) /\
  ~ (exists e, coo_atomic_sum false values post_ids 2 (Some pre_ids) = Raise e).
Proof.
  intros values pre_ids post_ids.
  assert (H : coo_atomic_sum false values post_ids 2 (Some pre_ids)
              = Ok (mk_prim_call values pre_ids post_ids 2))
    by (vm_compute; reflexivity).
  split; [simpl; tauto|]. split; [lia|]. split; [exact H|].
  intros [e He]. rewrite H in He. discriminate.
Qed.

Lemma index_dtype_msg_includes (d_pre d_post : dtype) :
  includes (dtype_repr d_pre) (index_dtype_msg d_pre d_post) = true /\
  includes (dtype_repr d_post) (index_dtype_msg d_pre d_post) = true.
Proof.
  unfold index_dtype_msg. split.
  - apply includes_middle.
  - do 3 apply includes_append. apply includes_prefix.
Qed.

(** No other exception of [coo_atomic_sum] is the dtype-mismatch error. *)
Lemma other_messages (d1 d2 d : dtype) (n m : Z) :
  length_msg n m <> index_dtype_msg d1 d2 /\
  post_dtype_msg d <> index_dtype_msg d1 d2 /\
  values_dtype_msg d <> index_dtype_msg d1 d2 /\
  values_size_msg n m <> index_dtype_msg d1 d2.
Proof.
  unfold length_msg, post_dtype_msg, values_dtype_msg, values_size_msg,
    index_dtype_msg, dq.
  repeat split; cbn; discriminate.
Qed.

(** C4, as the code has it.  For a non-scalar [values] and explicit index
    arrays: when the two lengths agree and the dtypes differ, the call
    raises the dtype-mismatch [ValueError], whose message includes both
    dtypes; when the lengths differ, it raises the length-mismatch
    [ValueError] instead, whatever the dtypes are; when the dtypes agree,
    the dtype-mismatch error is not raised. *)
Theorem index_dtype_mismatch (x64 : bool) (values : ndarray float)
    (post_ids pre_ids : ndarray Z) (post_num n_pre n_post : Z) :
  size values <> 1 ->
  len pre_ids = Ok n_pre ->
  len post_ids = Ok n_post ->
  (n_pre = n_post -> arr_dtype pre_ids <> arr_dtype post_ids ->
   coo_atomic_sum x64 values post_ids post_num (Some pre_ids)
     = Raise (ValueError (index_dtype_msg (arr_dtype pre_ids) (arr_dtype post_ids))) /\
   includes (dtype_repr (arr_dtype pre_ids))
     (index_dtype_msg (arr_dtype pre_ids) (arr_dtype post_ids)) = true /\
   includes (dtype_repr (arr_dtype post_ids))
     (index_dtype_msg (arr_dtype pre_ids) (arr_dtype post_ids)) = true) /\
  (n_pre <> n_post ->
   coo_atomic_sum x64 values post_ids post_num (Some pre_ids)
     = Raise (ValueError (length_msg n_pre n_post))) /\
  (arr_dtype pre_ids = arr_dtype post_ids ->
   forall d1 d2,
     coo_atomic_sum x64 values post_ids post_num (Some pre_ids)
       <> Raise (ValueError (index_dtype_msg d1 d2))).
Proof.
  intros Hsize Hpre Hpost.
  apply Z.eqb_neq in Hsize.
  unfold coo_atomic_sum. rewrite size_after_wrap, Hsize. cbn [negb].
  cbn [mbind result_bind]. rewrite Hpre, Hpost. cbn [mbind result_bind].
  split; [|split].
  - intros -> Hne. rewrite Z.eqb_refl. cbn [negb].
    destruct (dtype_eqb (arr_dtype pre_ids) (arr_dtype post_ids)) eqn:E.
    + apply dtype_eqb_eq in E. contradiction.
    + cbn [negb]. split; [reflexivity|]. apply index_dtype_msg_includes.
  - intros Hne. apply Z.eqb_neq in Hne. rewrite Hne. reflexivity.
  - intros Heq d1 d2. rewrite Heq, dtype_eqb_refl. cbn [negb].
    destruct (other_messages d1 d2 (arr_dtype post_ids) n_pre n_post)
      as (H1 & H2 & _).
    case_if; [congruence|]. case_if; [congruence|].
    case_if.
    { pose proof (other_messages d1 d2
        (arr_dtype (if ndim values =? 0 then asarray_list x64 values
                    else values)) 0 0) as (_ & _ & H3 & _).
      congruence. }
    unfold array_max.
    destruct (arr_data pre_ids) as [|x l]; cbn [mbind result_bind].
    { cbn. discriminate. }
    destruct (size values <=? fold_left Z.max l x); cbn [mbind result_bind];
      [|discriminate].
    pose proof (other_messages d1 d2 float32 (size values)
                  (fold_left Z.max l x)) as (_ & _ & _ & H4).
    congruence.
Qed.

Lemma index_dtype_mismatch_witness :
  let values := array1 float32 [float_1; float_2] in
  let pre_ids := array1 uint32 [0; 1] in
  let post_ids := array1 uint64 [1; 0] in
  size values <> 1 /\ len pre_ids = Ok 2 /\ len post_ids = Ok 2 /\
  coo_atomic_sum false values post_ids 2 (Some pre_ids)
    = Raise (ValueError (index_dtype_msg uint32 uint64)) /\
  includes "dtype('uint32')" (index_dtype_msg uint32 uint64) = true /\
  includes "dtype('uint64')" (index_dtype_msg uint32 uint64) = true.
Proof.
  intros values pre_ids post_ids.
  split; [discriminate|]. split; [reflexivity|]. split; [reflexivity|].
  refine (proj1 (index_dtype_mismatch false values post_ids pre_ids 2 2 2
                   _ eq_refl eq_refl) eq_refl _);
    vm_compute; discriminate.
Defined.

(** C4, as stated, fails: the index dtypes differ, yet the exception is the
    length-mismatch error, and its message names no dtype. *)
Lemma index_dtype_mismatch_masked_by_length :
  let values := array1 float32 [float_1; float_2] in
  let pre_ids := array1 uint32 [0; 1] in
  let post_ids := array1 uint64 [0] in
  size values <> 1 /\ arr_dtype pre_ids <> arr_dtype post_ids /\
  coo_atomic_sum false values post_ids 1 (Some pre_ids)
    = Raise (ValueError (length_msg 2 1)) /\
  coo_atomic_sum false values post_ids 1 (Some pre_ids)
    <> Raise (ValueError (index_dtype_msg uint32 uint64)) /\
  includes (dtype_repr uint32) (length_msg 2 1) = false /\
  includes (dtype_repr uint64) (length_msg 2 1) = false /\
  includes (dtype_str uint32) (length_msg 2 1) = false /\
  includes (dtype_str uint64) (length_msg 2 1) = false.
Proof.
  intros values pre_ids post_ids.
  split; [discriminate|]. split; [discriminate|].
  split; [vm_compute; reflexivity|].
  split; [vm_compute; discriminate|].
  vm_compute. repeat split.
Qed.

End AtomicSumFacts.

(** ** [npbrain]: [post_cond_by_post2syn] and [SynConn] *)

Module NpBrainFacts.
Import NpBrain.

Lemma fancy_index_length (a : list float) (idx : list Z) (v : list float) :
  fancy_index a idx = Ok v -> length v = length idx.
Proof.
  revert v. induction idx as [|k idx IH]; intros v; cbn [fancy_index].
  - intros [= <-]. reflexivity.
  - destruct (index1 a k) as [x|e]; cbn [mbind result_bind]; [|discriminate].
    destruct (fancy_index a idx) as [xs|e]; cbn [mbind result_bind];
      [|discriminate].
    intros [= <-]. cbn [length]. rewrite (IH xs eq_refl). reflexivity.
Qed.

Lemma setitem_array_length (g v g' : list float) (i : nat) :
  setitem_array g i v = Ok g' -> length v = 1%nat.
Proof.
  unfold setitem_array. destruct v as [|x [|y v]]; try discriminate.
  reflexivity.
Qed.

Lemma setitem_array_ok (g v g' : list float) (i : nat) :
  setitem_array g i v = Ok g' ->
  exists x, v = [x] /\ (i < length g)%nat /\ g' = <[i := x]> g.
Proof.
  unfold setitem_array. destruct v as [|x [|y v]]; try discriminate.
  destruct (Nat.ltb_spec i (length g)); [|discriminate].
  intros [= <-]. exists x. repeat split. assumption.
Qed.

Lemma fancy_index_singleton (a : list float) (idx : list Z) (x : float) :
  fancy_index a idx = Ok [x] -> exists k, idx = [k] /\ index1 a k = Ok x.
Proof.
  intros H. pose proof (fancy_index_length a idx [x] H) as Hlen.
  destruct idx as [|k [|k' idx]]; try discriminate.
  exists k. split; [reflexivity|]. cbn [fancy_index] in H.
  destruct (index1 a k) as [x'|e]; cbn [mbind result_bind] in H; congruence.
Qed.

(** When the loop returns, every group held exactly one index, and the
    positions from [i] on hold the selected values. *)
Lemma post_cond_loop_returns (syn_val : list float) (groups : list (list Z))
    (i : nat) (g_val g_val' : list float) :
  post_cond_loop syn_val groups i g_val = Ok g_val' ->
  length g_val = (i + length groups)%nat ->
  exists xs,
    g_val' = take i g_val ++ xs /\
    Forall2 (fun syn_idx x =>
               exists k, syn_idx = [k] /\ index1 syn_val k = Ok x) groups xs.
Proof.
  revert i g_val.
  induction groups as [|syn_idx groups IH]; intros i g_val;
    cbn [post_cond_loop length].
  - intros [= <-] Hlen. exists []. rewrite Nat.add_0_r in Hlen.
    rewrite <- Hlen, firstn_all, app_nil_r. split; constructor.
  - destruct (fancy_index syn_val syn_idx) as [v|e] eqn:Hv;
      cbn [mbind result_bind]; [|discriminate].
    destruct (setitem_array g_val i v) as [g1|e] eqn:Hg;
      cbn [mbind result_bind]; [|discriminate].
    intros Hloop Hlen.
    apply setitem_array_ok in Hg as (x & -> & Hi & ->).
    apply fancy_index_singleton in Hv as (k & -> & Hk).
    destruct (IH (S i) (<[i := x]> g_val) Hloop) as (xs & -> & Hxs).
    { rewrite length_insert. lia. }
    exists (x :: xs). split; [|constructor; [exists k; split; [reflexivity|exact Hk]|exact Hxs]].
    rewrite (take_S_r _ i x) by (apply list_lookup_insert_eq; exact Hi).
    rewrite take_insert_ge by lia. rewrite <- app_assoc. reflexivity.
Qed.

(** [post_cond_by_post2syn] returns only when every postsynaptic neuron has
    exactly one synapse; its value for the neuron is then the value of that
    synapse. *)
Lemma post_cond_by_post2syn_returns (syn_val : list float)
    (post2syn : list (list Z)) (g_val : list float) :
  post_cond_by_post2syn syn_val post2syn = Ok g_val ->
  Forall2 (fun syn_idx x =>
             exists k, syn_idx = [k] /\ index1 syn_val k = Ok x)
    post2syn g_val.
Proof.
  unfold post_cond_by_post2syn. intros H.
  apply post_cond_loop_returns in H as (xs & -> & Hxs).
  - rewrite take_0. exact Hxs.
  - rewrite length_replicate. reflexivity.
Qed.

Lemma post_cond_loop_raises (syn_val : list float) (groups : list (list Z))
    (i : nat) (g_val : list float) :
  Exists (fun syn_idx => length syn_idx <> 1%nat) groups ->
  exists e, post_cond_loop syn_val groups i g_val = Raise e.
Proof.
  intros H. revert i g_val.
  induction H as [syn_idx groups Hbad | syn_idx groups _ IH]; intros i g_val;
    cbn [post_cond_loop].
  - destruct (fancy_index syn_val syn_idx) as [v|e] eqn:Hv;
      cbn [mbind result_bind]; [|eauto].
    destruct (setitem_array g_val i v) as [g'|e] eqn:Hg;
      cbn [mbind result_bind]; [|eauto].
    apply fancy_index_length in Hv. apply setitem_array_length in Hg.
    congruence.
  - destruct (fancy_index syn_val syn_idx) as [v|e];
      cbn [mbind result_bind]; [|eauto].
    destruct (setitem_array g_val i v) as [g'|e];
      cbn [mbind result_bind]; [|eauto].
    apply IH.
Qed.

(** C1, what the code does.  [post_cond_by_post2syn] stores the selected
    synapse values of a postsynaptic neuron without summing them: as soon as
    one neuron has no synapse or more than one, the call raises instead of
    returning the sums. *)
Theorem post_cond_by_post2syn_raises (syn_val : list float)
    (post2syn : list (list Z)) :
  Exists (fun syn_idx => length syn_idx <> 1%nat) post2syn ->
  exists e, post_cond_by_post2syn syn_val post2syn = Raise e.
Proof. intros H. apply post_cond_loop_raises, H. Qed.

Lemma post_cond_by_post2syn_raises_witness :
  Exists (fun syn_idx => length syn_idx <> 1%nat) [[0; 2]; [1]] /\
  exists e, post_cond_by_post2syn [float_1; float_2; float_3] [[0; 2]; [1]]
            = Raise e.
Proof.
  assert (H : Exists (fun syn_idx : list Z => length syn_idx <> 1%nat)
                [[0; 2]; [1]])
    by (apply Exists_cons_hd; simpl; lia).
  split; [exact H|].
  exact (post_cond_by_post2syn_raises [float_1; float_2; float_3]
           [[0; 2]; [1]] H).
Defined.

(** The exception at that input, and the one case that returns: every
    neuron with exactly one synapse. *)
Example post_cond_by_post2syn_examples :
  post_cond_by_post2syn [float_1; float_2; float_3] [[0; 2]; [1]]
    = Raise (ValueError "setting an array element with a sequence.") /\
  post_cond_by_post2syn [float_1; float_2; float_3] [[]; [1]]
    = Raise (ValueError "setting an array element with a sequence.") /\
  post_cond_by_post2syn [float_1; float_2; float_3] [[2]; [0]]
    = Ok [float_3; float_1].
Proof. vm_compute. repeat split. Qed.

(** *** The per-step plan *)

Lemma length_append (p s : string) :
  String.length (p +:+ s) = (String.length p + String.length s)%nat.
Proof.
  induction p as [|a p IH]; simpl; [reflexivity|].
  rewrite IH. reflexivity.
Qed.

Lemma append_longer (p s : string) (a : ascii) : String a p +:+ s <> s.
Proof.
  intros H. apply (f_equal String.length) in H.
  simpl in H. rewrite length_append in H. lia.
Qed.

(** The text before the suffix is found, and only there. *)
Lemma strip_suffix_append (suffix p : string) :
  strip_suffix suffix (p +:+ suffix) = Some p.
Proof.
  induction p as [|a p IH].
  - change ("" +:+ suffix) with suffix.
    destruct suffix; cbn [strip_suffix]; rewrite String.eqb_refl; reflexivity.
  - change (String a p +:+ suffix) with (String a (p +:+ suffix)).
    cbn [strip_suffix].
    destruct (String.eqb_spec (String a (p +:+ suffix)) suffix) as [H|_].
    + exfalso. exact (append_longer p suffix a H).
    + rewrite IH. reflexivity.
Qed.

Lemma strip_suffix_inv (suffix s p : string) :
  strip_suffix suffix s = Some p -> s = p +:+ suffix.
Proof.
  revert p. induction s as [|a s IH]; intros p; cbn [strip_suffix].
  - destruct (String.eqb_spec EmptyString suffix) as [<-|_];
      [intros [= <-]; reflexivity|discriminate].
  - destruct (String.eqb_spec (String a s) suffix) as [<-|_];
      [intros [= <-]; reflexivity|].
    destruct (strip_suffix suffix s) as [p'|]; [|discriminate].
    intros [= <-]. rewrite (IH p' eq_refl). reflexivity.
Qed.

(** The entries other than the ensemble's own cursor advance leave its
    cursors alone, when the model's own steps do. *)
Lemma run_plan_model_steps
    (model_step : string -> gmap string SynState -> gmap string SynState)
    (nm : string) (plan : list string) (ensembles ensembles' : gmap string SynState)
    (st : SynState) :
  (forall entry m st0, m !! nm = Some st0 ->
     exists st1, model_step entry m !! nm = Some st1 /\ same_cursors st0 st1) ->
  ~ In (nm +:+ ".ST._update_delay_indices()") plan ->
  ensembles !! nm = Some st ->
  run_plan model_step plan ensembles = Ok ensembles' ->
  exists st', ensembles' !! nm = Some st' /\ same_cursors st st'.
Proof.
  intros Hstep. revert ensembles st.
  induction plan as [|entry plan IH]; intros m st Hnot Hst Hrun;
    cbn [run_plan] in Hrun.
  - injection Hrun as <-. exists st. split; [exact Hst|]. repeat split.
  - cbn [In] in Hnot.
    destruct (run_entry model_step m entry) as [m1|e] eqn:Hentry;
      cbn [mbind result_bind] in Hrun; [|discriminate].
    assert (H1 : exists st1, m1 !! nm = Some st1 /\ same_cursors st st1).
    { unfold run_entry in Hentry.
      destruct (strip_suffix ".ST._update_delay_indices()" entry) as [obj|]
        eqn:Hstrip.
      - apply strip_suffix_inv in Hstrip.
        destruct (m !! obj) as [st0|]; [|discriminate].
        injection Hentry as <-. exists st.
        rewrite lookup_insert_ne by (intros ->; tauto).
        split; [exact Hst|]. repeat split.
      - injection Hentry as <-. apply Hstep, Hst. }
    destruct H1 as (st1 & Hst1 & Hc1).
    destruct (IH m1 st1 ltac:(tauto) Hst1 Hrun) as (st' & Hst' & Hc').
    exists st'. split; [exact Hst'|].
    unfold same_cursors in *. intuition congruence.
Qed.

(** Running a plan that ends with the cursor advance of an ensemble. *)
Lemma run_plan_advance_last
    (model_step : string -> gmap string SynState -> gmap string SynState)
    (nm : string) (plan : list string)
    (ensembles ensembles' : gmap string SynState) (st : SynState) :
  run_plan model_step plan ensembles = Ok ensembles' ->
  ensembles' !! nm = Some st ->
  run_plan model_step (plan ++ [nm +:+ ".ST._update_delay_indices()"]) ensembles
  = Ok (<[nm := _update_delay_indices st]> ensembles').
Proof.
  revert ensembles. induction plan as [|entry plan IH]; intros m Hrun Hst.
  - cbn [run_plan] in Hrun. injection Hrun as <-.
    cbn [app run_plan]. unfold run_entry.
    rewrite strip_suffix_append, Hst. reflexivity.
  - cbn [app run_plan] in *.
    destruct (run_entry model_step m entry) as [m1|e];
      cbn [mbind result_bind] in *; [|discriminate].
    apply IH; assumption.
Qed.

(** C6.  The plan of [SynConn._merge_steps] is the plan of the base class
    followed by one more entry, the text
    [<name>.ST._update_delay_indices()] with the name of the ensemble
    itself: the cursor advance is the last entry and comes after every
    entry of the base plan.  It occurs once more than in the base plan,
    so exactly once when the base plan (the base class is not in the
    sources, and its plan is a parameter) holds only the model's own
    steps.  When the entries of the base plan run and leave the cursors of
    the ensemble alone, running the plan advances both cursors by one slot,
    once, after them. *)
Theorem merge_steps_advance_last
    (base_merge_steps : SynConn -> SynConn * list string)
    (self self' : SynConn) (base_plan : list string) :
  base_merge_steps self = (self', base_plan) ->
  ~ In (name self' +:+ ".ST._update_delay_indices()") base_plan ->
  exists plan,
    _merge_steps base_merge_steps self = (self', plan) /\
    plan = base_plan ++ [name self' +:+ ".ST._update_delay_indices()"] /\
    last plan = Some (name self' +:+ ".ST._update_delay_indices()") /\
    count_occ string_dec plan (name self' +:+ ".ST._update_delay_indices()")
      = S (count_occ string_dec base_plan
             (name self' +:+ ".ST._update_delay_indices()")) /\
    count_occ string_dec plan (name self' +:+ ".ST._update_delay_indices()")
      = 1%nat /\
    (forall model_step ensembles ensembles1 st,
       (forall entry m st0, m !! name self' = Some st0 ->
          exists st1, model_step entry m !! name self' = Some st1 /\
                      delay_in st1 = delay_in st0 /\
                      delay_out st1 = delay_out st0 /\
                      st_delay_len st1 = st_delay_len st0) ->
       ensembles !! name self' = Some st ->
       run_plan model_step base_plan ensembles = Ok ensembles1 ->
       exists st1 st2,
         ensembles1 !! name self' = Some st1 /\
         run_plan model_step plan ensembles
           = Ok (<[name self' := st2]> ensembles1) /\
         st2 = _update_delay_indices st1 /\
         delay_in st2 = (delay_in st + 1) mod (st_delay_len st + 1) /\
         delay_out st2 = (delay_out st + 1) mod (st_delay_len st + 1) /\
         st_delay_len st2 = st_delay_len st).
Proof.
  intros Hbase Hnot.
  exists (base_plan ++ [name self' +:+ ".ST._update_delay_indices()"]).
  split; [unfold _merge_steps; rewrite Hbase; reflexivity|].
  split; [reflexivity|]. split; [apply last_snoc|].
  assert (Hcount : count_occ string_dec
            (base_plan ++ [name self' +:+ ".ST._update_delay_indices()"])
            (name self' +:+ ".ST._update_delay_indices()")
          = S (count_occ string_dec base_plan
                 (name self' +:+ ".ST._update_delay_indices()"))).
  { rewrite count_occ_app. cbn [count_occ].
    destruct (string_dec (name self' +:+ ".ST._update_delay_indices()")
                (name self' +:+ ".ST._update_delay_indices()"));
      [lia|contradiction]. }
  split; [exact Hcount|]. split.
  - rewrite Hcount.
    apply (count_occ_not_In string_dec) in Hnot. rewrite Hnot. reflexivity.
  - intros model_step ensembles ensembles1 st Hstep Hst Hrun.
    destruct (run_plan_model_steps model_step (name self') base_plan
                ensembles ensembles1 st Hstep Hnot Hst Hrun)
      as (st1 & Hst1 & H1 & H2 & H3).
    exists st1, (_update_delay_indices st1).
    split; [exact Hst1|].
    split; [apply run_plan_advance_last; assumption|].
    split; [reflexivity|].
    cbn [_update_delay_indices delay_in delay_out st_delay_len].
    rewrite H1, H2, H3. repeat split.
Qed.

Lemma merge_steps_advance_last_witness :
  let self := mk_SynConn
                (BaseEnsemble_init PyNone "syn_a" 1 PyNone PyNone PyNone)
                None None None 2 (SynState_create PyNone 1 2) in
  let base_merge_steps := fun s : SynConn =>
    (s, [name s +:+ ".update()"; "syn_b.ST._update_delay_indices()";
         name s +:+ ".output()"]) in
  let plan := ["syn_a.update()"; "syn_b.ST._update_delay_indices()";
               "syn_a.output()"; "syn_a.ST._update_delay_indices()"] in
  let ensembles : gmap string SynState :=
    <["syn_a" := ST self]> (<["syn_b" := SynState_create PyNone 4 0]> ∅) in
  _merge_steps base_merge_steps self = (self, plan) /\
  last plan = Some "syn_a.ST._update_delay_indices()" /\
  count_occ string_dec plan "syn_a.ST._update_delay_indices()" = 1%nat /\
  delay_in (ST self) = 2 /\ delay_out (ST self) = 0 /\
  exists ensembles2 st2,
    run_plan (fun _ m => m) plan ensembles = Ok ensembles2 /\
    ensembles2 !! "syn_a" = Some st2 /\
    delay_in st2 = 0 /\ delay_out st2 = 1.
Proof.
  intros self base_merge_steps plan ensembles.
  assert (Hnot : ~ In ("syn_a" +:+ ".ST._update_delay_indices()")
                     ["syn_a.update()"; "syn_b.ST._update_delay_indices()";
                      "syn_a.output()"])
    by (simpl; intros [H|[H|[H|[]]]]; discriminate).
  destruct (merge_steps_advance_last base_merge_steps self self _ eq_refl Hnot)
    as (plan' & Hmerge & Hplan & Hlast & _ & Hcount & Hrun).
  change (plan' = plan) in Hplan. subst plan'.
  destruct (Hrun (fun _ m => m) ensembles
              (<["syn_b" := _update_delay_indices (SynState_create PyNone 4 0)]>
                 ensembles)
              (ST self))
    as (st1 & st2 & Hst1 & Hplan & Hst2 & Hin & Hout & _).
  { intros entry m st0 H0. exists st0. split; [exact H0|]. repeat split. }
  { reflexivity. }
  { vm_compute. reflexivity. }
  split; [exact Hmerge|]. split; [exact Hlast|]. split; [exact Hcount|].
  split; [reflexivity|]. split; [reflexivity|].
  eexists _, st2. split; [exact Hplan|].
  split; [apply lookup_insert_eq|]. split; [exact Hin|exact Hout].
Defined.

(** *** The constructor *)

(** What a successful construction went through. *)
Lemma SynConn_init_ok (a : init_args) (dt : float) (syn_no syn_no' : Z)
    (s : SynConn) :
  SynConn_init a dt syn_no = (syn_no', Ok s) ->
  exists nm w n dl,
    match a_pre_group a, a_post_group a with
    | Some pre_group, Some post_group =>
        exists w0, connect pre_group post_group (a_conn a) = Ok w0 /\
                   w = Some w0 /\ n = Z.of_nat (length (pre_ids w0))
    | _, _ => a_num a = Some n /\ w = None
    end /\
    0 < n < 2 ^ 64 /\
    init_delay_len (a_delay a) dt = Ok dl /\
    s = mk_SynConn
          (BaseEnsemble_init (a_create_func a) nm n (a_pars_update a)
             (a_vars_init a) (a_monitors a))
          (a_pre_group a) (a_post_group a) w dl
          (SynState_create (a_vars_init a) n dl).
Proof.
  unfold SynConn_init.
  destruct (match a_name a with
            | Some name => (name, syn_no)
            | None => ("SynConn" +:+ str_int syn_no, syn_no + 1)
            end) as [nm k].
  intros [= _ H]. revert H.
  set (wn := match a_pre_group a with Some _ => _ | None => _ end).
  assert (Hwn : forall w n, wn = Ok (w, n) ->
    match a_pre_group a, a_post_group a with
    | Some pre_group, Some post_group =>
        exists w0, connect pre_group post_group (a_conn a) = Ok w0 /\
                   w = Some w0 /\ n = Z.of_nat (length (pre_ids w0))
    | _, _ => a_num a = Some n /\ w = None
    end).
  { subst wn. intros w n.
    destruct (a_pre_group a) as [p|], (a_post_group a) as [q|];
      try (destruct (a_num a); intros [= <- <-]; split; reflexivity).
    destruct (connect p q (a_conn a)) as [w0|e]; cbn [mbind result_bind];
      [|discriminate].
    intros [= <- <-]. exists w0. repeat split. }
  destruct wn as [[w n]|e]; cbn [mbind result_bind]; [|discriminate].
  unfold py_assert.
  destruct ((0 <? n) && (n <? 2 ^ 64)) eqn:Hn; cbn [mbind result_bind];
    [|discriminate].
  destruct (init_delay_len (a_delay a) dt) as [dl|e] eqn:Hdl;
    cbn [mbind result_bind]; [|discriminate].
  intros [= <-]. exists nm, w, n, dl.
  split; [apply Hwn; reflexivity|].
  split; [lia|]. split; reflexivity.
Qed.

Lemma after_operations_num
    (base_merge_steps : SynConn -> SynConn * list string)
    (ops : list operation) (self : SynConn) :
  (forall self0, num (fst (base_merge_steps self0)) = num self0) ->
  num (fold_left (after_operation base_merge_steps) ops self) = num self.
Proof.
  intros Hbase. revert self.
  induction ops as [|o ops IH]; intros self; cbn [fold_left]; [reflexivity|].
  rewrite IH. destruct o; cbn [after_operation]; [|reflexivity].
  unfold _merge_steps. specialize (Hbase self).
  destruct (base_merge_steps self) as [self' plan]. exact Hbase.
Qed.

(** C5.  A constructed [SynConn] has [0 < num < 2^64]; built from a pre-
    and a post-group, its [num] is the number of edges, the length of
    [pre_ids]; its state is sized with the same [num]; and the operations of
    the ensemble leave [num] as the constructor set it (the methods of the
    base class are parameters and are taken not to assign [num]). *)
Theorem SynConn_num (base_merge_steps : SynConn -> SynConn * list string)
    (a : init_args) (dt : float) (syn_no syn_no' : Z) (s : SynConn) :
  (forall self, num (fst (base_merge_steps self)) = num self) ->
  SynConn_init a dt syn_no = (syn_no', Ok s) ->
  0 < num s < 2 ^ 64 /\
  (forall pre_group post_group,
     a_pre_group a = Some pre_group -> a_post_group a = Some post_group ->
     exists w, wires s = Some w /\ num s = Z.of_nat (length (pre_ids w))) /\
  (a_pre_group a = None \/ a_post_group a = None -> a_num a = Some (num s)) /\
  st_size (ST s) = num s /\
  (forall ops,
     num (fold_left (after_operation base_merge_steps) ops s) = num s).
Proof.
  intros Hbase Hinit.
  apply SynConn_init_ok in Hinit as (nm & w & n & dl & Hw & Hn & _ & ->).
  cbn [num wires ST SynState_create st_size].
  split; [exact Hn|]. split; [|split; [|split]].
  - intros p q Hp Hq. rewrite Hp, Hq in Hw.
    destruct Hw as (w0 & _ & -> & ->). exists w0. split; reflexivity.
  - intros [H|H]; rewrite H in Hw; [tauto|].
    destruct (a_pre_group a); tauto.
  - reflexivity.
  - intros ops. rewrite after_operations_num by exact Hbase. reflexivity.
Qed.

Lemma SynConn_num_witness :
  let group := IsNeuGroup (mk_NeuGroup 2 [2] ∅) in
  let conn := IsDict (<["i" := [0; 1; 1]]> (<["j" := [1; 0; 1]]> ∅)) in
  let a := mk_init_args PyNone (PyFloat float_1) (Some group) (Some group)
             (Some conn) None PyNone PyNone PyNone None in
  let base_merge_steps := fun self : SynConn =>
    (self, [name self +:+ ".update()"]) in
  exists s,
    SynConn_init a float_0_1 0 = (1, Ok s) /\
    0 < num s < 2 ^ 64 /\
    (exists w, wires s = Some w /\ num s = Z.of_nat (length (pre_ids w))) /\
    num s = 3 /\
    st_size (ST s) = num s /\
    num (fold_left (after_operation base_merge_steps)
           [DoMergeSteps; DoKeywords; DoMergeSteps] s) = num s.
Proof.
  intros group conn a base_merge_steps.
  destruct (SynConn_init a float_0_1 0) as [k [s|e]] eqn:Hinit;
    [|vm_compute in Hinit; discriminate].
  assert (Hk : k = 1) by (vm_compute in Hinit; congruence). subst k.
  exists s.
  destruct (SynConn_num base_merge_steps a float_0_1 0 1 s
              (fun _ => eq_refl) Hinit) as (Hn & Hw & _ & Hst & Hops).
  split; [reflexivity|]. split; [exact Hn|].
  split; [exact (Hw group group eq_refl eq_refl)|].
  split; [vm_compute in Hinit; injection Hinit as <-; reflexivity|].
  split; [exact Hst|exact (Hops _)].
Defined.

(** *** The delay *)

Lemma init_delay_len_nonneg (delay : pyval) (dt : float) (dl : Z) :
  init_delay_len delay dt = Ok dl ->
  match delay with
  | PyFloat d => float_leb float_zero d = true
  | PyInt n => 0 <= n
  | _ => True
  end ->
  float_ltb float_zero dt = true ->
  0 <= dl.
Proof.
  intros Hdl Hdelay Hdt.
  apply float_ltb_zero in Hdt as [Hdt Hnz].
  assert (Hq : forall d, not_negative d = true ->
               (q ← py_truediv d dt; int_of_ceil q) = Ok dl -> 0 <= dl).
  { intros d Hd. unfold py_truediv. rewrite Hnz. cbn [mbind result_bind].
    apply int_of_ceil_nonneg, float_div_not_negative; assumption. }
  destruct delay as [|n|d|str|o]; cbn [init_delay_len] in Hdl;
    try discriminate.
  - injection Hdl as <-. lia.
  - destruct (float_of_int n) as [d|e] eqn:Hn; cbn [mbind result_bind] in Hdl;
      [|discriminate].
    apply (Hq d); [|exact Hdl].
    apply (float_of_int_not_negative n); assumption.
  - apply (Hq d); [|exact Hdl]. apply float_leb_zero, Hdelay.
Qed.

(** C10, as the code has it.  A constructed [SynConn] has [delay_len = 0]
    for [delay = None]; for a float [delay] it has the ceiling of the
    quotient [delay / dt], and for an [int] the same after the conversion
    to a float; such a [delay_len] is nonnegative when [0 <= delay] and
    [0 < dt].  For a delay of another type the conversion raises, and the
    construction fails with an error: no [SynConn] is constructed. *)
Theorem SynConn_delay_len (a : init_args) (dt : float) (syn_no : Z) :
  (forall syn_no' s,
     SynConn_init a dt syn_no = (syn_no', Ok s) ->
     init_delay_len (a_delay a) dt = Ok (delay_len s) /\
     match a_delay a with
     | PyNone => delay_len s = 0
     | PyFloat d =>
         float_is_zero dt = false /\
         is_ceiling (float_div d dt) (delay_len s) /\
         (float_leb float_zero d = true -> float_ltb float_zero dt = true ->
          0 <= delay_len s)
     | PyInt n =>
         float_is_zero dt = false /\
         (exists d, float_of_int n = Ok d /\
                    is_ceiling (float_div d dt) (delay_len s)) /\
         (0 <= n -> float_ltb float_zero dt = true -> 0 <= delay_len s)
     | PyStr _ | PyObj _ => False
     end) /\
  (match a_delay a with PyStr _ | PyObj _ => True | _ => False end ->
   init_delay_len (a_delay a) dt = Raise (ValueError
     "NumpyBrain currently doesn't support other kinds of delay.") /\
   exists e, snd (SynConn_init a dt syn_no) = Raise e).
Proof.
  split.
  - intros syn_no' s Hinit.
    apply SynConn_init_ok in Hinit as (nm & w & n & dl & _ & _ & Hdl & ->).
    cbn [delay_len]. split; [exact Hdl|].
    pose proof (init_delay_len_nonneg (a_delay a) dt dl Hdl) as Hnn.
    assert (Hq : forall d, (q ← py_truediv d dt; int_of_ceil q) = Ok dl ->
                 float_is_zero dt = false /\ is_ceiling (float_div d dt) dl).
    { intros d. unfold py_truediv.
      destruct (float_is_zero dt); cbn [mbind result_bind]; [discriminate|].
      intros H. split; [reflexivity|]. apply int_of_ceil_is_ceiling, H. }
    destruct (a_delay a) as [|k|d|str|o]; cbn [init_delay_len] in Hdl;
      try discriminate.
    + congruence.
    + destruct (float_of_int k) as [d|e] eqn:Hk; cbn [mbind result_bind] in Hdl;
        [|discriminate].
      destruct (Hq d Hdl) as [Hz Hc].
      split; [exact Hz|]. split; [exists d; split; [reflexivity|exact Hc]|].
      exact Hnn.
    + destruct (Hq d Hdl) as [Hz Hc]. repeat split; assumption.
  - intros Hother.
    assert (Hdl : init_delay_len (a_delay a) dt = Raise (ValueError
             "NumpyBrain currently doesn't support other kinds of delay."))
      by (destruct (a_delay a); try contradiction; reflexivity).
    split; [exact Hdl|].
    destruct (SynConn_init a dt syn_no) as [k [s|e]] eqn:Hinit;
      [|exists e; reflexivity].
    apply SynConn_init_ok in Hinit as (_ & _ & _ & dl & _ & _ & Hdl' & _).
    congruence.
Qed.

Lemma SynConn_delay_len_witness :
  let a0 := mk_init_args PyNone PyNone None None None (Some 1)
              PyNone PyNone PyNone (Some "syn") in
  let a := mk_init_args PyNone (PyFloat float_1) None None None (Some 1)
             PyNone PyNone PyNone (Some "syn") in
  let a' := mk_init_args PyNone (PyStr "1 ms") None None None (Some 1)
              PyNone PyNone PyNone (Some "syn") in
  (exists s, SynConn_init a0 float_0_1 0 = (0, Ok s) /\ delay_len s = 0) /\
  (exists s, SynConn_init a float_0_1 0 = (0, Ok s) /\
             delay_len s = 10 /\
             is_ceiling (float_div float_1 float_0_1) (delay_len s) /\
             0 <= delay_len s) /\
  (exists e, snd (SynConn_init a' float_0_1 0) = Raise e).
Proof.
  intros a0 a a'. split; [|split].
  - destruct (SynConn_init a0 float_0_1 0) as [k [s|e]] eqn:Hinit;
      [|vm_compute in Hinit; discriminate].
    assert (Hk : k = 0) by (vm_compute in Hinit; congruence). subst k.
    exists s. split; [reflexivity|].
    exact (proj2 (proj1 (SynConn_delay_len a0 float_0_1 0) 0 s Hinit)).
  - destruct (SynConn_init a float_0_1 0) as [k [s|e]] eqn:Hinit;
      [|vm_compute in Hinit; discriminate].
    assert (Hk : k = 0) by (vm_compute in Hinit; congruence). subst k.
    exists s. split; [reflexivity|].
    destruct (proj1 (SynConn_delay_len a float_0_1 0) 0 s Hinit)
      as (Hdl & _ & Hc & Hnn).
    assert (H10 : init_delay_len (a_delay a) float_0_1 = Ok 10)
      by (vm_compute; reflexivity).
    split; [congruence|].
    split; [exact Hc|]. apply Hnn; reflexivity.
  - apply (proj2 (SynConn_delay_len a' float_0_1 0)). exact I.
Defined.

(** C10, as stated, fails: with [dt = 0.1] the delay [-1.0], and the [int]
    delay [-1], give a constructed [SynConn] whose [delay_len] is [-10]. *)
Lemma negative_delay_len :
  let a := mk_init_args PyNone (PyFloat float_neg_1) None None None (Some 1)
             PyNone PyNone PyNone (Some "syn") in
  let a' := mk_init_args PyNone (PyInt (-1)) None None None (Some 1)
              PyNone PyNone PyNone (Some "syn") in
  (exists s, SynConn_init a float_0_1 0 = (0, Ok s) /\
             delay_len s = -10 /\ delay_len s < 0) /\
  (exists s, SynConn_init a' float_0_1 0 = (0, Ok s) /\
             delay_len s = -10 /\ delay_len s < 0).
Proof.
  intros a a'. split.
  - destruct (SynConn_init a float_0_1 0) as [k [s|e]] eqn:Hinit;
      [|vm_compute in Hinit; discriminate].
    exists s. vm_compute in Hinit. injection Hinit as <- <-.
    split; [reflexivity|]. split; reflexivity.
  - destruct (SynConn_init a' float_0_1 0) as [k [s|e]] eqn:Hinit;
      [|vm_compute in Hinit; discriminate].
    exists s. vm_compute in Hinit. injection Hinit as <- <-.
    split; [reflexivity|]. split; reflexivity.
Qed.

(** *** A connection matrix *)

(** An exception of the matrix branch is the exception of the
    constructor. *)
Lemma SynConn_init_matrix (a : init_args) (dt : float) (syn_no : Z)
    (pre post : NeuGroup) (c : ndarray Z) (e : exn) :
  a_pre_group a = Some (IsNeuGroup pre) ->
  a_post_group a = Some (IsNeuGroup post) ->
  a_conn a = Some (IsArray c) ->
  matrix_edges (ng_num pre) (ng_num post) c = Raise e ->
  snd (SynConn_init a dt syn_no) = Raise e.
Proof.
  intros Hpre Hpost Hconn He. unfold SynConn_init.
  destruct (match a_name a with
            | Some name => (name, syn_no)
            | None => ("SynConn" +:+ str_int syn_no, syn_no + 1)
            end) as [nm k].
  cbn [snd]. rewrite Hpre, Hpost, Hconn. unfold connect.
  cbn [mbind result_bind]. rewrite He. reflexivity.
Qed.

Lemma matrix_edges_not_2d (pre_num post_num : Z) (c : ndarray Z) :
  ndim c <> 2 ->
  matrix_edges pre_num post_num c = Raise (AssertionError (not_2d_msg (ndim c))).
Proof.
  intros H. apply Z.eqb_neq in H. unfold matrix_edges, py_assert.
  rewrite H. reflexivity.
Qed.

Lemma matrix_edges_wrong_shape (pre_num post_num r k : Z) (c : ndarray Z) :
  arr_shape c = [r; k] -> r <> pre_num \/ k <> post_num ->
  matrix_edges pre_num post_num c
  = Raise (AssertionError (conn_shape_msg pre_num post_num)).
Proof.
  intros Hs Hne. unfold matrix_edges, py_assert, ndim. rewrite Hs.
  cbn [length Z.of_nat Pos.of_succ_nat Pos.succ Z.eqb Pos.eqb nth].
  cbn [mbind result_bind].
  replace ((r =? pre_num) && (k =? post_num)) with false; [reflexivity|].
  symmetry. apply andb_false_iff.
  destruct Hne as [H|H]; [left|right]; apply Z.eqb_neq, H.
Qed.

Lemma matrix_edges_right_shape (pre_num post_num : Z) (c : ndarray Z) :
  arr_shape c = [pre_num; post_num] ->
  matrix_edges pre_num post_num c
  = Raise (TypeError "'int' object is not iterable").
Proof.
  intros Hs. unfold matrix_edges, py_assert, ndim. rewrite Hs.
  cbn [length Z.of_nat Pos.of_succ_nat Pos.succ Z.eqb Pos.eqb nth].
  cbn [mbind result_bind]. rewrite !Z.eqb_refl. reflexivity.
Qed.

(** C7, as the code has it.  With a pre- and a post-group and an array as
    [conn]: an array that is not two-dimensional makes the constructor raise
    an [AssertionError] whose message asks for a 2D array and gives the
    number of dimensions found; a two-dimensional array of another shape
    than [(pre_group.num, post_group.num)] makes it raise an
    [AssertionError] whose message includes both expected sizes.  In both
    cases no [SynConn] is produced. *)
Theorem conn_shape_checked (a : init_args) (dt : float) (syn_no : Z)
    (pre post : NeuGroup) (c : ndarray Z) :
  a_pre_group a = Some (IsNeuGroup pre) ->
  a_post_group a = Some (IsNeuGroup post) ->
  a_conn a = Some (IsArray c) ->
  (ndim c <> 2 ->
   snd (SynConn_init a dt syn_no)
     = Raise (AssertionError (not_2d_msg (ndim c))) /\
   includes "2D" (not_2d_msg (ndim c)) = true /\
   includes (str_int (ndim c)) (not_2d_msg (ndim c)) = true) /\
  (forall r k,
     arr_shape c = [r; k] -> r <> ng_num pre \/ k <> ng_num post ->
     snd (SynConn_init a dt syn_no)
       = Raise (AssertionError (conn_shape_msg (ng_num pre) (ng_num post))) /\
     includes (str_int (ng_num pre))
       (conn_shape_msg (ng_num pre) (ng_num post)) = true /\
     includes (str_int (ng_num post))
       (conn_shape_msg (ng_num pre) (ng_num post)) = true).
Proof.
  intros Hpre Hpost Hconn. split.
  - intros Hnd. split; [|split].
    + apply (SynConn_init_matrix a dt syn_no pre post c); try assumption.
      apply matrix_edges_not_2d, Hnd.
    + unfold not_2d_msg. do 3 apply includes_append. reflexivity.
    + unfold not_2d_msg. do 4 apply includes_append. apply includes_prefix.
  - intros r k Hs Hne. split; [|split].
    + apply (SynConn_init_matrix a dt syn_no pre post c); try assumption.
      apply (matrix_edges_wrong_shape _ _ r k); assumption.
    + unfold conn_shape_msg. do 5 apply includes_append. apply includes_prefix.
    + unfold conn_shape_msg. do 7 apply includes_append. apply includes_prefix.
Qed.

Lemma conn_shape_checked_witness :
  let pre := mk_NeuGroup 3 [3] ∅ in
  let post := mk_NeuGroup 4 [4] ∅ in
  let flat := array1 int64 [1; 0; 1] in
  let wide := mk_ndarray int64 [3; 5] (replicate 15 1) in
  let args := fun c => mk_init_args PyNone (PyFloat float_zero)
                (Some (IsNeuGroup pre)) (Some (IsNeuGroup post))
                (Some (IsArray c)) None PyNone PyNone PyNone None in
  (snd (SynConn_init (args flat) float_0_1 0)
     = Raise (AssertionError (not_2d_msg 1)) /\
   includes "2D" (not_2d_msg 1) = true /\
   includes "1" (not_2d_msg 1) = true) /\
  (snd (SynConn_init (args wide) float_0_1 0)
     = Raise (AssertionError (conn_shape_msg 3 4)) /\
   includes "3" (conn_shape_msg 3 4) = true /\
   includes "4" (conn_shape_msg 3 4) = true).
Proof.
  intros pre post flat wide args. split.
  - apply (proj1 (conn_shape_checked (args flat) float_0_1 0 pre post flat
                    eq_refl eq_refl eq_refl)).
    vm_compute. discriminate.
  - apply (proj2 (conn_shape_checked (args wide) float_0_1 0 pre post wide
                    eq_refl eq_refl eq_refl) 3 5); [reflexivity|].
    right. vm_compute. discriminate.
Defined.

(** C7, as stated, fails for an array that is not two-dimensional: the
    message of the exception includes neither expected size. *)
Lemma not_2d_message_without_sizes :
  let pre := mk_NeuGroup 3 [3] ∅ in
  let post := mk_NeuGroup 4 [4] ∅ in
  let flat := array1 int64 [1; 0; 1] in
  let a := mk_init_args PyNone (PyFloat float_zero)
             (Some (IsNeuGroup pre)) (Some (IsNeuGroup post))
             (Some (IsArray flat)) None PyNone PyNone PyNone None in
  ndim flat <> 2 /\
  exists msg,
    snd (SynConn_init a float_0_1 0) = Raise (AssertionError msg) /\
    includes (str_int (ng_num pre)) msg = false /\
    includes (str_int (ng_num post)) msg = false.
Proof.
  intros pre post flat a. split; [vm_compute; discriminate|].
  exists (not_2d_msg 1). vm_compute. repeat split.
Qed.

(** C2, what the code does.  With a pre- and a post-group and a matrix of
    the shape [(pre_group.num, post_group.num)], the loop over the rows
    asks for [enumerate(pre_group.num)], and the constructor raises a
    [TypeError]: no edge is extracted and no [SynConn] is produced. *)
Theorem matrix_conn_raises (a : init_args) (dt : float) (syn_no : Z)
    (pre post : NeuGroup) (c : ndarray Z) :
  a_pre_group a = Some (IsNeuGroup pre) ->
  a_post_group a = Some (IsNeuGroup post) ->
  a_conn a = Some (IsArray c) ->
  arr_shape c = [ng_num pre; ng_num post] ->
  snd (SynConn_init a dt syn_no)
  = Raise (TypeError "'int' object is not iterable").
Proof.
  intros Hpre Hpost Hconn Hs.
  apply (SynConn_init_matrix a dt syn_no pre post c); try assumption.
  apply matrix_edges_right_shape, Hs.
Qed.

Lemma matrix_conn_raises_witness :
  let group := mk_NeuGroup 2 [2] ∅ in
  let c := mk_ndarray int64 [2; 2] [0; 1; 1; 0] in
  let a := mk_init_args PyNone (PyFloat float_zero)
             (Some (IsNeuGroup group)) (Some (IsNeuGroup group))
             (Some (IsArray c)) None PyNone PyNone PyNone None in
  snd (SynConn_init a float_0_1 0)
  = Raise (TypeError "'int' object is not iterable").
Proof.
  intros group c a.
  exact (matrix_conn_raises a float_0_1 0 group group c
           eq_refl eq_refl eq_refl eq_refl).
Defined.

End NpBrainFacts.

(** * Further properties *)

(** ** [brainpy.math] *)

Module BrainpyMathMore.
Import BrainpyMath.

(** What the loop of [use_backend] does to one name: it leaves it as it
    was, or binds it to a value of the module, whatever the globals were. *)
Lemma replace_operations_cases (items : list (string * pyval)) (k : string) :
  (forall g : globals, fold_left replace_operation items g !! k = g !! k) \/
  (exists v, forall g : globals,
     fold_left replace_operation items g !! k = Some v).
Proof.
  induction items as [|[key value] items IH]; [left; reflexivity|].
  destruct IH as [IH|[v IH]].
  - destruct (skipped key) eqn:Hs.
    + left. intros g. cbn [fold_left]. rewrite IH.
      unfold replace_operation. rewrite Hs. reflexivity.
    + destruct (String.eqb_spec key k) as [->|Hne].
      * right. exists value. intros g. cbn [fold_left]. rewrite IH.
        unfold replace_operation. rewrite Hs. apply lookup_insert_eq.
      * left. intros g. cbn [fold_left]. rewrite IH.
        unfold replace_operation. rewrite Hs. apply lookup_insert_ne, Hne.
  - right. exists v. intros g. cbn [fold_left]. apply IH.
Qed.

(** The loop sees the globals only through the bindings it overwrites: run
    on globals that already are its result, it changes nothing. *)
Lemma replace_operations_twice (items : list (string * pyval)) (g : globals) :
  fold_left replace_operation items (fold_left replace_operation items g)
  = fold_left replace_operation items g.
Proof.
  apply map_eq. intros k.
  destruct (replace_operations_cases items k) as [Hid|[v Hv]].
  - rewrite !Hid. reflexivity.
  - rewrite !Hv. reflexivity.
Qed.

Lemma skipped_spec (k : string) :
  skipped k = false <->
  starts_with "_" k = false \/ k = "__name__" \/ k = "__doc__" \/
  k = "__file__" \/ k = "__path__".
Proof.
  unfold skipped, kept_private. cbn [existsb].
  rewrite andb_false_iff, negb_false_iff, !orb_true_iff, !String.eqb_eq.
  intuition discriminate.
Qed.

Section Backends.
Variable object_dict : pyval -> result (list (string * pyval)).
Variable import_submodule : string -> result pyval.

(** The two invariants of the globals: [__dt] is a float, and
    [BACKEND_NAME] is one of the three backends. *)
Lemma after_call_dt_float (g : globals) (c : call) :
  (exists f, g !! "__dt" = Some (PyFloat f)) ->
  exists f, after_call object_dict import_submodule g c !! "__dt"
            = Some (PyFloat f).
Proof.
  intros [f Hf]. destruct c as [dt| | | | |nm]; cbn [after_call]; eauto.
  - unfold set_dt. destruct dt; cbn; eauto.
    exists f0. apply lookup_insert_eq.
  - rewrite BrainpyMathFacts.use_backend_keeps_dt. eauto.
Qed.

Lemma after_call_backend_name (g : globals) (c : call) :
  (forall m items, object_dict m = Ok items ->
     ~ In "BACKEND_NAME" (map fst items)) ->
  (exists nm, (nm = "numpy" \/ nm = "numba" \/ nm = "jax") /\
              g !! "BACKEND_NAME" = Some (PyStr nm)) ->
  exists nm, (nm = "numpy" \/ nm = "numba" \/ nm = "jax") /\
             after_call object_dict import_submodule g c !! "BACKEND_NAME"
               = Some (PyStr nm).
Proof.
  intros Hdict (nm & Hnm & Hg).
  destruct c as [dt| | | | |nm']; cbn [after_call]; eauto.
  - unfold set_dt. destruct dt; cbn; eauto.
    exists nm. split; [exact Hnm|].
    rewrite lookup_insert_ne by discriminate. exact Hg.
  - unfold use_backend.
    destruct (BrainpyMathFacts.select_module_cases import_submodule nm' g)
      as [->|[Hnm' Hsel]]; [cbn [fst]; eauto|].
    destruct (select_module import_submodule nm' g) as [g1 [module|e]] eqn:E.
    + exists nm'. split; [exact Hnm'|].
      destruct (object_dict module) as [items|e] eqn:Hitems; cbn [fst].
      * rewrite BrainpyMathFacts.replace_operations_absent
          by exact (Hdict module items Hitems).
        apply lookup_insert_eq.
      * apply lookup_insert_eq.
    + exists nm. split; [exact Hnm|]. cbn [fst].
      replace g1 with (fst (select_module import_submodule nm' g))
        by (rewrite E; reflexivity).
      rewrite BrainpyMathFacts.select_module_other by discriminate.
      exact Hg.
Qed.

End Backends.

(** X1.  From the import of the module on, whatever calls are made, with
    whatever arguments, [get_dt()] returns a float: a rejected [set_dt]
    changes nothing and no other function rebinds [__dt]. *)
Theorem get_dt_always_float
    (object_dict : pyval -> result (list (string * pyval)))
    (import_submodule : string -> result pyval)
    (others : globals) (cs : list call) :
  exists f,
    get_dt (after_calls object_dict import_submodule
              (module_globals others) cs) = Ok (PyFloat f).
Proof.
  assert (H : exists f, module_globals others !! "__dt" = Some (PyFloat f)).
  { exists float_0_1. unfold module_globals.
    rewrite lookup_insert_ne by discriminate. apply lookup_insert_eq. }
  unfold after_calls. revert H. generalize (module_globals others) as g.
  induction cs as [|c cs IH]; intros g H; cbn [fold_left].
  - destruct H as [f Hf]. exists f. unfold get_dt, read_global.
    rewrite Hf. reflexivity.
  - apply IH, after_call_dt_float, H.
Qed.

(** X2.  When no object whose dictionary [use_backend] reads has a key
    [BACKEND_NAME], then from the import of the module on, whatever calls
    are made and whether they return or raise, the global [BACKEND_NAME]
    is one of the strings numpy, numba and jax. *)
Theorem backend_name_always_known
    (object_dict : pyval -> result (list (string * pyval)))
    (import_submodule : string -> result pyval)
    (others : globals) (cs : list call) :
  (forall m items, object_dict m = Ok items ->
     ~ In "BACKEND_NAME" (map fst items)) ->
  exists nm,
    (nm = "numpy" \/ nm = "numba" \/ nm = "jax") /\
    get_backend_name (after_calls object_dict import_submodule
                        (module_globals others) cs) = Ok (PyStr nm).
Proof.
  intros Hdict.
  assert (H : exists nm, (nm = "numpy" \/ nm = "numba" \/ nm = "jax") /\
               after_calls object_dict import_submodule
                 (module_globals others) cs !! "BACKEND_NAME"
               = Some (PyStr nm)).
  { unfold after_calls.
    assert (H0 : exists nm, (nm = "numpy" \/ nm = "numba" \/ nm = "jax") /\
               module_globals others !! "BACKEND_NAME" = Some (PyStr nm)).
    { exists "numpy". split; [tauto|]. apply lookup_insert_eq. }
    revert H0. generalize (module_globals others) as g0.
    induction cs as [|c cs IH]; intros g0 H0; cbn [fold_left]; [exact H0|].
    apply IH, after_call_backend_name; assumption. }
  destruct H as (nm & Hnm & Hg).
  exists nm. split; [exact Hnm|].
  unfold get_backend_name, read_global. rewrite Hg. reflexivity.
Qed.

Lemma backend_name_always_known_witness :
  let object_dict := fun m : pyval =>
    match m with
    | PyObj r => Ok [("__name__", PyStr r); ("jax", PyObj "jax")]
    | _ => Raise (AttributeError "__dict__")
    end in
  let cs := [CallUseBackend "jax"; CallSetDt (PyInt 1); CallUseBackend "torch";
             CallUseBackend "jax"] in
  exists nm,
    (nm = "numpy" \/ nm = "numba" \/ nm = "jax") /\
    get_backend_name (after_calls object_dict example_import
                        (module_globals ∅) cs) = Ok (PyStr nm).
Proof.
  intros object_dict cs.
  apply (backend_name_always_known object_dict example_import ∅ cs).
  intros m items. destruct m; simpl; try discriminate.
  intros [= <-]. simpl. intros [H|[H|[]]]; discriminate.
Defined.

(** X3.  A [use_backend(name)] with one of the three names that returns has
    bound every key of the selected object's dictionary that does not start
    with an underscore, and the four keys [__name__], [__doc__], [__file__]
    and [__path__], to the dictionary's value; every other name that starts
    with an underscore keeps the binding it had.  The selected object is the
    one bound to the name in the package, which after an earlier call need
    not be the submodule, or the imported submodule when none is bound. *)
Theorem use_backend_copies_names
    (object_dict : pyval -> result (list (string * pyval)))
    (import_submodule : string -> result pyval)
    (g : globals) (nm : string) (module : pyval)
    (items : list (string * pyval)) :
  nm = "numpy" \/ nm = "numba" \/ nm = "jax" ->
  g !! nm = Some module \/ g !! nm = None /\ import_submodule nm = Ok module ->
  object_dict module = Ok items ->
  NoDup (map fst items) ->
  (forall k v, In (k, v) items ->
     starts_with "_" k = false \/ k = "__name__" \/ k = "__doc__" \/
     k = "__file__" \/ k = "__path__" ->
     fst (use_backend object_dict import_submodule nm g) !! k = Some v) /\
  (forall k, starts_with "_" k = true ->
     k <> "__name__" -> k <> "__doc__" -> k <> "__file__" -> k <> "__path__" ->
     fst (use_backend object_dict import_submodule nm g) !! k = g !! k).
Proof.
  intros Hnm Hm Hitems Hnd.
  rewrite (BrainpyMathFacts.use_backend_selected object_dict import_submodule
             nm g module items Hnm Hm Hitems).
  cbn [fst]. split.
  - intros k v Hin Hk.
    apply BrainpyMathFacts.replace_operations_bound;
      [exact Hnd|exact Hin|apply skipped_spec, Hk].
  - intros k Hk H1 H2 H3 H4.
    assert (Hs : skipped k = true).
    { destruct (skipped k) eqn:E; [reflexivity|].
      apply skipped_spec in E. rewrite Hk in E.
      destruct E as [E|[E|[E|[E|E]]]]; [discriminate|contradiction..]. }
    rewrite BrainpyMathFacts.replace_operations_skipped by exact Hs.
    rewrite lookup_insert_ne by (intros <-; discriminate).
    apply lookup_insert_ne. intros <-.
    destruct Hnm as [-> | [-> | ->]]; discriminate.
Qed.

Lemma use_backend_copies_names_witness :
  let g := <["_private" := PyInt 7]> example_globals in
  let g1 := fst (use_backend example_dict example_import "numpy" g) in
  let g2 := fst (use_backend example_dict example_import "jax" g) in
  let g3 := fst (use_backend example_dict example_import "jax" g2) in
  (g1 !! "sum" = Some (PyObj "numpy.sum") /\
   g1 !! "__name__" = Some (PyStr "brainpy.math.numpy") /\
   g1 !! "_private" = Some (PyInt 7)) /\
  (g2 !! "sum" = Some (PyObj "jax.numpy.sum") /\
   g2 !! "jax" = Some (PyObj "jax")) /\
  (g3 !! "jit" = Some (PyObj "jax.jit") /\
   g3 !! "__name__" = Some (PyStr "jax")).
Proof.
  intros g g1 g2 g3.
  assert (Hnd : forall items : list (string * pyval),
            NoDup (map fst items) <-> List.NoDup (map fst items))
    by (intros items; apply NoDup_ListNoDup).
  destruct (use_backend_copies_names example_dict example_import g "numpy"
              (PyObj "brainpy.math.numpy") _
              (or_introl eq_refl) (or_introl eq_refl) eq_refl)
    as [Hcopy1 Hkeep1].
  { apply Hnd. repeat constructor; simpl; intuition discriminate. }
  destruct (use_backend_copies_names example_dict example_import g "jax"
              (PyObj "brainpy.math.jax") _
              (or_intror (or_intror eq_refl)) (or_introl eq_refl) eq_refl)
    as [Hcopy2 _].
  { apply Hnd. repeat constructor; simpl; intuition discriminate. }
  assert (Hjax : g2 !! "jax" = Some (PyObj "jax")).
  { apply Hcopy2; [simpl; tauto|left; reflexivity]. }
  destruct (use_backend_copies_names example_dict example_import g2 "jax"
              (PyObj "jax") _
              (or_intror (or_intror eq_refl)) (or_introl Hjax) eq_refl)
    as [Hcopy3 _].
  { apply Hnd. repeat constructor; simpl; intuition discriminate. }
  split; [split; [|split]|split; [split|split]].
  - apply Hcopy1; [simpl; tauto|left; reflexivity].
  - apply Hcopy1; [simpl; tauto|right; left; reflexivity].
  - rewrite Hkeep1; [reflexivity|reflexivity|discriminate..].
  - apply Hcopy2; [simpl; tauto|left; reflexivity].
  - exact Hjax.
  - apply Hcopy3; [simpl; tauto|left; reflexivity].
  - apply Hcopy3; [simpl; tauto|right; left; reflexivity].
Defined.

(** X4.  A second [use_backend(name)] selects whatever the first call left
    bound to the name.  When the dictionary that the first call copied has
    no key equal to the name, that is the same object, and the second call
    leaves the globals as the first one made them and has the same outcome;
    when the dictionary binds the name to another object (as a package that
    imports a library of its own name does), the second call selects that
    object and copies its dictionary instead. *)
Theorem use_backend_twice
    (object_dict : pyval -> result (list (string * pyval)))
    (import_submodule : string -> result pyval)
    (g : globals) (nm : string) (module : pyval)
    (items : list (string * pyval)) :
  nm = "numpy" \/ nm = "numba" \/ nm = "jax" ->
  g !! nm = Some module \/ g !! nm = None /\ import_submodule nm = Ok module ->
  object_dict module = Ok items ->
  let g1 := fst (use_backend object_dict import_submodule nm g) in
  (~ In nm (map fst items) ->
   select_module import_submodule nm g1 = (g1, Ok module) /\
   use_backend object_dict import_submodule nm g1
     = use_backend object_dict import_submodule nm g) /\
  (forall other, NoDup (map fst items) -> In (nm, other) items ->
   select_module import_submodule nm g1 = (g1, Ok other) /\
   forall items', object_dict other = Ok items' ->
     use_backend object_dict import_submodule nm g1
     = (fold_left replace_operation items'
          (<["BACKEND_NAME" := PyStr nm]> g1), Ok tt)).
Proof.
  intros Hnm Hm Hitems g1.
  assert (Hg1 : g1 = fold_left replace_operation items
                  (<["BACKEND_NAME" := PyStr nm]> (<[nm := module]> g))).
  { unfold g1.
    rewrite (BrainpyMathFacts.use_backend_selected object_dict
               import_submodule nm g module items Hnm Hm Hitems).
    reflexivity. }
  assert (Hne : "BACKEND_NAME" <> nm)
    by (destruct Hnm as [-> | [-> | ->]]; discriminate).
  assert (Hskip : skipped nm = false)
    by (destruct Hnm as [-> | [-> | ->]]; reflexivity).
  split.
  - intros Habs.
    assert (Hsame : g1 !! nm = Some module).
    { rewrite Hg1, BrainpyMathFacts.replace_operations_absent by exact Habs.
      rewrite lookup_insert_ne by exact Hne. apply lookup_insert_eq. }
    assert (Hsel : select_module import_submodule nm g1 = (g1, Ok module)).
    { rewrite (BrainpyMathFacts.select_module_selected import_submodule nm g1
                 module Hnm (or_introl Hsame)).
      rewrite insert_id by exact Hsame. reflexivity. }
    split; [exact Hsel|].
    rewrite (BrainpyMathFacts.use_backend_selected object_dict
               import_submodule nm g1 module items Hnm (or_introl Hsame)
               Hitems).
    rewrite (BrainpyMathFacts.use_backend_selected object_dict
               import_submodule nm g module items Hnm Hm Hitems).
    f_equal. rewrite (insert_id g1 nm module) by exact Hsame.
    rewrite <- Hg1. apply map_eq. intros k.
    destruct (replace_operations_cases items k) as [Hid|[v Hv]].
    + rewrite Hid.
      destruct (String.eqb_spec "BACKEND_NAME" k) as [<-|Hk].
      * rewrite lookup_insert_eq, Hg1, Hid. rewrite lookup_insert_eq.
        reflexivity.
      * apply lookup_insert_ne, Hk.
    + rewrite Hv, Hg1, Hv. reflexivity.
  - intros other Hnd Hin.
    assert (Hother : g1 !! nm = Some other).
    { rewrite Hg1.
      apply BrainpyMathFacts.replace_operations_bound; assumption. }
    assert (Hsel : select_module import_submodule nm g1 = (g1, Ok other)).
    { rewrite (BrainpyMathFacts.select_module_selected import_submodule nm g1
                 other Hnm (or_introl Hother)).
      rewrite insert_id by exact Hother. reflexivity. }
    split; [exact Hsel|].
    intros items' Hitems'.
    rewrite (BrainpyMathFacts.use_backend_selected object_dict
               import_submodule nm g1 other items' Hnm (or_introl Hother)
               Hitems').
    rewrite (insert_id g1 nm other) by exact Hother. reflexivity.
Qed.

Lemma use_backend_twice_witness :
  let use := use_backend example_dict example_import in
  let g := example_globals in
  use "numpy" (fst (use "numpy" g)) = use "numpy" g /\
  select_module example_import "jax" (fst (use "jax" g))
    = (fst (use "jax" g), Ok (PyObj "jax")) /\
  fst (use "jax" (fst (use "jax" g))) !! "__name__" = Some (PyStr "jax") /\
  fst (use "jax" g) !! "__name__" = Some (PyStr "brainpy.math.jax").
Proof.
  intros use g.
  destruct (use_backend_twice example_dict example_import g "numpy"
              (PyObj "brainpy.math.numpy") _
              (or_introl eq_refl) (or_introl eq_refl) eq_refl)
    as [Hsame _].
  destruct (use_backend_twice example_dict example_import g "jax"
              (PyObj "brainpy.math.jax") _
              (or_intror (or_intror eq_refl)) (or_introl eq_refl) eq_refl)
    as [_ Hother].
  split; [|split; [|split]].
  - apply Hsame. simpl. intuition discriminate.
  - apply (Hother (PyObj "jax")); [|simpl; tauto].
    apply NoDup_ListNoDup. repeat constructor; simpl; intuition discriminate.
  - unfold use.
    rewrite (proj2 (Hother (PyObj "jax")
               ltac:(apply NoDup_ListNoDup; repeat constructor; simpl;
                     intuition discriminate)
               ltac:(simpl; tauto)) _ eq_refl).
    reflexivity.
  - reflexivity.
Defined.

(** X5.  [use_backend] never unbinds a name: whatever was bound in the
    globals before the call is bound after it, also when the call fails;
    the names of an earlier backend stay unless the new one rebinds them. *)
Theorem use_backend_keeps_names_bound
    (object_dict : pyval -> result (list (string * pyval)))
    (import_submodule : string -> result pyval)
    (g : globals) (nm k : string) :
  is_Some (g !! k) ->
  is_Some (fst (use_backend object_dict import_submodule nm g) !! k).
Proof.
  intros Hk.
  assert (Hsel : is_Some (fst (select_module import_submodule nm g) !! k)).
  { destruct (BrainpyMathFacts.select_module_cases import_submodule nm g)
      as [->|[_ ->]]; [exact Hk|].
    unfold from_import. destruct (g !! nm); [exact Hk|].
    destruct (import_submodule nm); [|exact Hk].
    cbn [fst]. destruct (String.eqb_spec nm k) as [->|Hne].
    - rewrite lookup_insert_eq. eauto.
    - rewrite lookup_insert_ne by exact Hne. exact Hk. }
  unfold use_backend.
  destruct (select_module import_submodule nm g) as [g1 [module|e]];
    cbn [fst] in *; [|exact Hsel].
  assert (Hname : is_Some (<["BACKEND_NAME" := PyStr nm]> g1 !! k)).
  { destruct (String.eqb_spec "BACKEND_NAME" k) as [<-|Hne].
    - rewrite lookup_insert_eq. eauto.
    - rewrite lookup_insert_ne by exact Hne. exact Hsel. }
  destruct (object_dict module) as [items|e]; cbn [fst]; [|exact Hname].
  destruct (replace_operations_cases items k) as [Hid|[v Hv]].
  - rewrite Hid. exact Hname.
  - rewrite Hv. eauto.
Qed.

Lemma use_backend_keeps_names_bound_witness :
  let g := fst (use_backend example_dict example_import "jax" example_globals) in
  is_Some (g !! "sum") /\
  is_Some (fst (use_backend example_dict example_import "torch" g) !! "sum") /\
  is_Some (fst (use_backend example_dict example_import "numpy" g) !! "sum").
Proof.
  intros g.
  assert (H : is_Some (g !! "sum")) by (vm_compute; eauto).
  split; [exact H|]. split.
  - exact (use_backend_keeps_names_bound example_dict example_import g "torch"
             "sum" H).
  - exact (use_backend_keeps_names_bound example_dict example_import g "numpy"
             "sum" H).
Defined.

End BrainpyMathMore.

(** ** [coo_atomic_sum] and its translation rule *)

Module AtomicSumMore.
Import AtomicSum.

Lemma fold_max_lt (l : list Z) (x n : Z) :
  fold_left Z.max l x < n <-> Forall (fun k => k < n) (x :: l).
Proof.
  revert x. induction l as [|y l IH]; intros x; cbn [fold_left].
  - split; [intros H; repeat constructor; exact H|].
    intros H. apply Forall_cons in H as [H _]. exact H.
  - rewrite IH. split; intros H.
    + apply Forall_cons in H as [H1 H2].
      constructor; [lia|]. constructor; [lia|exact H2].
    + apply Forall_cons in H as [H1 H2]. apply Forall_cons in H2 as [H2 H3].
      constructor; [lia|exact H3].
Qed.

Lemma in_uint (d : dtype) :
  existsb (dtype_eqb d) [uint32; uint64] = true <-> d = uint32 \/ d = uint64.
Proof. destruct d; cbn; split; intros H; try tauto; try discriminate;
  destruct H; discriminate. Qed.

Lemma in_float (d : dtype) :
  existsb (dtype_eqb d) [float32; float64] = true <->
  d = float32 \/ d = float64.
Proof. destruct d; cbn; split; intros H; try tauto; try discriminate;
  destruct H; discriminate. Qed.

(** Making a dtype canonical keeps it among, or out of, the accepted
    ones. *)
Lemma canonical_float (x64 : bool) (d : dtype) :
  existsb (dtype_eqb (canonicalize_dtype x64 d)) [float32; float64]
  = existsb (dtype_eqb d) [float32; float64].
Proof. destruct x64, d; reflexivity. Qed.

Lemma canonical_uint (x64 : bool) (d : dtype) :
  existsb (dtype_eqb (canonicalize_dtype x64 d)) [uint32; uint64]
  = existsb (dtype_eqb d) [uint32; uint64].
Proof. destruct x64, d; reflexivity. Qed.

Lemma canonical_twice (x64 : bool) (d : dtype) :
  canonicalize_dtype x64 (canonicalize_dtype x64 d) = canonicalize_dtype x64 d.
Proof. destruct x64, d; reflexivity. Qed.

(** The array that reaches the primitive as [values]. *)
Lemma wrapped_dtype (x64 : bool) (values : ndarray float) :
  arr_dtype (if ndim values =? 0 then asarray_list x64 values else values)
  = if ndim values =? 0 then canonicalize_dtype x64 (arr_dtype values)
    else arr_dtype values.
Proof. destruct (ndim values =? 0); reflexivity. Qed.

Lemma wrapped_float (x64 : bool) (values : ndarray float) :
  existsb (dtype_eqb (arr_dtype (if ndim values =? 0
                                 then asarray_list x64 values else values)))
    [float32; float64]
  = existsb (dtype_eqb (arr_dtype values)) [float32; float64].
Proof.
  rewrite wrapped_dtype. destruct (ndim values =? 0); [|reflexivity].
  apply canonical_float.
Qed.

(** When [coo_atomic_sum] returns, and with what. *)
Lemma coo_atomic_sum_ok_iff (x64 : bool) (values : ndarray float)
    (post_ids : ndarray Z) (post_num : Z) (pre_ids : option (ndarray Z))
    (c : prim_call) :
  coo_atomic_sum x64 values post_ids post_num pre_ids = Ok c <->
  exists p l,
    (if size values =? 1 then Some post_ids else pre_ids) = Some p /\
    len p = Ok l /\ len post_ids = Ok l /\
    arr_dtype p = arr_dtype post_ids /\
    (arr_dtype post_ids = uint32 \/ arr_dtype post_ids = uint64) /\
    (arr_dtype values = float32 \/ arr_dtype values = float64) /\
    (size values = 1 \/
     (arr_data p <> [] /\ Forall (fun k => k < size values) (arr_data p))) /\
    c = mk_prim_call
          (if ndim values =? 0 then asarray_list x64 values else values)
          p post_ids post_num.
Proof.
  unfold coo_atomic_sum.
  rewrite AtomicSumFacts.size_after_wrap, wrapped_float.
  set (values' := if ndim values =? 0 then _ else values).
  set (p0 := if size values =? 1 then Some post_ids else pre_ids).
  assert (Hp0 : (if negb (size values =? 1)
                 then match pre_ids with
                      | Some a => Ok a
                      | None => Raise (AssertionError missing_pre_ids_msg)
                      end
                 else Ok post_ids)
                = match p0 with
                  | Some a => Ok a
                  | None => Raise (AssertionError missing_pre_ids_msg)
                  end).
  { subst p0. destruct (size values =? 1); reflexivity. }
  rewrite Hp0. clear Hp0.
  destruct p0 as [p|]; cbn [mbind result_bind];
    [|split; [discriminate|intros (p & l & H & _); discriminate]].
  destruct (len p) as [lp|e] eqn:Hlp; cbn [mbind result_bind];
    [|split; [discriminate|intros (p' & l & [= <-] & H & _); congruence]].
  destruct (len post_ids) as [lq|e] eqn:Hlq; cbn [mbind result_bind];
    [|split; [discriminate|intros (p' & l & _ & _ & H & _); discriminate]].
  destruct (Z.eqb_spec lp lq) as [->|Hne]; cbn [negb];
    [|split; [discriminate|intros (p' & l & [= <-] & H1 & H2 & _); congruence]].
  destruct (dtype_eqb (arr_dtype p) (arr_dtype post_ids)) eqn:Hdt; cbn [negb].
  2:{ split; [discriminate|].
      intros (p' & l & [= <-] & _ & _ & H & _).
      apply AtomicSumFacts.dtype_eqb_eq in H. congruence. }
  apply AtomicSumFacts.dtype_eqb_eq in Hdt.
  destruct (existsb (dtype_eqb (arr_dtype post_ids)) [uint32; uint64]) eqn:Hu;
    cbn [negb].
  2:{ split; [discriminate|].
      intros (p' & l & _ & _ & _ & _ & H & _). apply in_uint in H. congruence. }
  apply in_uint in Hu.
  destruct (existsb (dtype_eqb (arr_dtype values)) [float32; float64]) eqn:Hf;
    cbn [negb].
  2:{ split; [discriminate|].
      intros (p' & l & _ & _ & _ & _ & _ & H & _). apply in_float in H.
      congruence. }
  apply in_float in Hf.
  destruct (Z.eqb_spec (size values) 1) as [Hs|Hs]; cbn [negb mbind result_bind].
  - split.
    + intros [= <-]. exists p, lq. repeat split; try assumption; tauto.
    + intros (p' & l & [= <-] & _ & _ & _ & _ & _ & _ & ->). reflexivity.
  - unfold array_max. destruct (arr_data p) as [|x data] eqn:Hdata;
      cbn [mbind result_bind].
    { split; [discriminate|].
      intros (p' & l & [= <-] & _ & _ & _ & _ & _ & [H|[H _]] & _);
        [contradiction|]. rewrite Hdata in H. contradiction. }
    destruct (Z.leb_spec (size values) (fold_left Z.max data x)) as [Hle|Hlt];
      cbn [mbind result_bind].
    + split; [discriminate|].
      intros (p' & l & [= <-] & _ & _ & _ & _ & _ & [H|[_ H]] & _);
        [contradiction|].
      rewrite Hdata in H. apply fold_max_lt in H. lia.
    + split.
      * intros [= <-]. exists p, lq. repeat split; try assumption.
        right. rewrite Hdata. split; [discriminate|]. apply fold_max_lt, Hlt.
      * intros (p' & l & [= <-] & _ & _ & _ & _ & _ & _ & ->). reflexivity.
Qed.

(** X7.  [coo_atomic_sum] hands a call to the primitive exactly when: the
    index arrays in use ([post_ids] for both when [values] has one element,
    else the given [pre_ids]) have the same length and the same dtype, that
    dtype is uint32 or uint64, the dtype of [values] is float32 or float64,
    and, for a [values] of more than one element, [pre_ids] is not empty and
    each of its entries is below [values.size].  The call then carries these
    index arrays, [post_num], and [values] as it is, except that a
    zero-dimensional [values] goes as [jnp.asarray([values])]: one element
    of the canonical dtype, which without [jax_enable_x64] is float32 also
    for a float64 scalar. *)
Theorem coo_atomic_sum_accepts (x64 : bool) (values : ndarray float)
    (post_ids : ndarray Z) (post_num : Z) (pre_ids : option (ndarray Z))
    (c : prim_call) :
  (coo_atomic_sum x64 values post_ids post_num pre_ids = Ok c <->
   exists p l,
     (if size values =? 1 then Some post_ids else pre_ids) = Some p /\
     len p = Ok l /\ len post_ids = Ok l /\
     arr_dtype p = arr_dtype post_ids /\
     (arr_dtype post_ids = uint32 \/ arr_dtype post_ids = uint64) /\
     (arr_dtype values = float32 \/ arr_dtype values = float64) /\
     (size values = 1 \/
      (arr_data p <> [] /\ Forall (fun k => k < size values) (arr_data p))) /\
     c = mk_prim_call
           (if ndim values =? 0 then asarray_list x64 values else values)
           p post_ids post_num) /\
  arr_shape (asarray_list x64 values) = [1] /\
  arr_dtype (asarray_list x64 values)
    = (if x64 then arr_dtype values
       else match arr_dtype values with
            | float64 => float32
            | int64 => int32
            | uint64 => uint32
            | d => d
            end) /\
  arr_data (asarray_list x64 values)
    = (if x64 then arr_data values
       else match arr_dtype values with
            | float64 => map round_float32 (arr_data values)
            | _ => arr_data values
            end).
Proof.
  split; [apply coo_atomic_sum_ok_iff|].
  unfold asarray_list, canonicalize_dtype. cbn [arr_shape arr_dtype arr_data].
  destruct x64, (arr_dtype values); split; try split; reflexivity.
Qed.

(** X8.  For a [values] of one element the argument [pre_ids] is not
    looked at: the outcome is the one without it, and the primitive gets
    [post_ids] in its place.  For any other [values], leaving [pre_ids] out
    raises an [AssertionError] before any other check. *)
Theorem pre_ids_only_for_vectors (x64 : bool) (values : ndarray float)
    (post_ids : ndarray Z) (post_num : Z) (pre_ids : option (ndarray Z)) :
  (size values = 1 ->
   coo_atomic_sum x64 values post_ids post_num pre_ids
     = coo_atomic_sum x64 values post_ids post_num None /\
   forall c, coo_atomic_sum x64 values post_ids post_num pre_ids = Ok c ->
             pc_pre_ids c = post_ids) /\
  (size values <> 1 ->
   coo_atomic_sum x64 values post_ids post_num None
     = Raise (AssertionError missing_pre_ids_msg)).
Proof.
  split.
  - intros Hs. split.
    + unfold coo_atomic_sum. rewrite Hs. reflexivity.
    + intros c Hc. apply coo_atomic_sum_ok_iff in Hc
        as (p & l & Hp & _ & _ & _ & _ & _ & _ & ->).
      rewrite Hs in Hp. cbn in Hp. cbn [pc_pre_ids]. congruence.
  - intros Hs. apply Z.eqb_neq in Hs. unfold coo_atomic_sum. rewrite Hs.
    reflexivity.
Qed.

Lemma pre_ids_only_for_vectors_witness :
  let scalar := mk_ndarray float32 [] [float_2] in
  let vector := array1 float32 [float_1; float_2] in
  let post_ids := array1 uint32 [0; 1; 0] in
  let other := array1 int64 [7] in
  size scalar = 1 /\ size vector <> 1 /\
  coo_atomic_sum false scalar post_ids 2 (Some other)
    = Ok (mk_prim_call (array1 float32 [float_2]) post_ids post_ids 2) /\
  coo_atomic_sum false vector post_ids 2 None
    = Raise (AssertionError missing_pre_ids_msg).
Proof.
  intros scalar vector post_ids other.
  split; [reflexivity|]. split; [vm_compute; discriminate|]. split.
  - rewrite (proj1 (proj1 (pre_ids_only_for_vectors false scalar post_ids 2
                             (Some other)) eq_refl)).
    vm_compute. reflexivity.
  - apply (proj2 (pre_ids_only_for_vectors false vector post_ids 2 None)).
    vm_compute. discriminate.
Defined.

(** What an accepted call looks like to the translation rule. *)
Lemma accepted_call_shapes (x64 : bool) (values : ndarray float)
    (post_ids : ndarray Z) (post_num : Z) (pre_ids : option (ndarray Z))
    (c : prim_call) :
  coo_atomic_sum x64 values post_ids post_num pre_ids = Ok c ->
  exists l d0,
    len post_ids = Ok l /\
    dimension0 (abstractify x64 (pc_post_ids c)) = Ok l /\
    dimension0 (abstractify x64 (pc_values c)) = Ok d0 /\
    (ndim values <= 1 -> (d0 = 1 <-> size values = 1)) /\
    existsb (dtype_eqb (element_type (abstractify x64 (pc_post_ids c))))
      [uint32; uint64] = true /\
    existsb (dtype_eqb (element_type (abstractify x64 (pc_values c))))
      [float32; float64] = true /\
    pc_post_ids c = post_ids /\ pc_post_num c = post_num.
Proof.
  intros Hc. apply coo_atomic_sum_ok_iff in Hc
    as (p & l & _ & _ & Hl & _ & Hu & Hf & _ & ->).
  cbn [pc_post_ids pc_values pc_post_num].
  unfold abstractify, dimension0. cbn [dimensions element_type].
  rewrite canonical_uint, canonical_float, wrapped_float.
  assert (Hd0 : exists d0,
            match arr_shape (if ndim values =? 0
                             then asarray_list x64 values else values) with
            | n :: _ => Ok n
            | [] => Raise (IndexError "tuple index out of range")
            end = Ok d0 /\
            (ndim values <= 1 -> (d0 = 1 <-> size values = 1))).
  { unfold ndim, size.
    destruct (arr_shape values) as [|d0 [|d1 sh]] eqn:Hsh.
    - exists 1. split; [reflexivity|]. cbn. tauto.
    - exists d0. change (Z.of_nat (length [d0]) =? 0) with false.
      cbv iota. rewrite Hsh. split; [reflexivity|]. cbn. intros _. lia.
    - exists d0.
      change (Z.of_nat (length (d0 :: d1 :: sh)) =? 0) with false.
      cbv iota. rewrite Hsh. split; [reflexivity|].
      cbn [length]. intros H. lia. }
  destruct Hd0 as (d0 & Hd0 & Hiff). exists l, d0.
  split; [exact Hl|].
  split. { unfold len in Hl. destruct (arr_shape post_ids); congruence. }
  split; [exact Hd0|]. split; [exact Hiff|].
  split; [apply in_uint, Hu|]. split; [apply in_float, Hf|].
  split; reflexivity.
Qed.

(** X9.  The translation rule on a call that [coo_atomic_sum] accepted,
    each array argument being seen under its shape with the canonical
    dtype: the reads of the first dimensions and the two type assertions
    cannot fail after the checks of the wrapper.  On the CPU, once the XLA
    client has built the scalar uint32 shape, the rule fails exactly when
    the client refuses the constant [conn_size], the constant [post_num] or
    the shape [(post_num,)], with the client's exception, the first of them
    in this order; the wrapper has no check on [post_num], so a negative one
    gets this far.  Otherwise the custom call declares the canonical dtype
    of [values] and the shape [(post_num,)].  On the GPU without the
    compiled module, and for another platform, the rule raises a
    [ValueError]. *)
Theorem accepted_call_translates (x64 : bool)
    (array_shape_raises : dtype -> list Z -> list Z -> option exn)
    (constant_literal_raises : constant -> option exn)
    (gpu_ops : option (Z -> Z -> result string))
    (values : ndarray float) (post_ids : ndarray Z) (post_num : Z)
    (pre_ids : option (ndarray Z)) (c : prim_call) (l : Z) :
  coo_atomic_sum x64 values post_ids post_num pre_ids = Ok c ->
  len post_ids = Ok l ->
  array_shape_raises uint32 [] [] = None ->
  let translate :=
    _atomic_sum_translation array_shape_raises constant_literal_raises gpu_ops
      (abstractify x64 (pc_values c)) (abstractify x64 (pc_pre_ids c))
      (abstractify x64 (pc_post_ids c)) (pc_post_num c) in
  let out_dtype := canonicalize_dtype x64 (arr_dtype (pc_values c)) in
  let refused :=
    match constant_literal_raises (ConstUint32 (l mod 2 ^ 32)) with
    | Some e => Some e
    | None =>
        match constant_literal_raises (ConstInt post_num) with
        | Some e => Some e
        | None => array_shape_raises out_dtype [post_num] [0]
        end
    end in
  match refused with
  | Some e => translate "cpu" = Raise e
  | None => exists cc, translate "cpu" = Ok cc /\
                       cc_shape cc = mk_xla_shape out_dtype [post_num] /\
                       cc_opaque cc = None
  end /\
  (gpu_ops = None ->
   translate "gpu" = Raise (ValueError "Cannot find compiled gpu wheels.")) /\
  (forall platform, platform <> "cpu" -> platform <> "gpu" ->
     translate platform = Raise (ValueError
       "Unsupported platform; this must be either 'cpu' or 'gpu'")).
Proof.
  intros Hc Hlen Hscalar translate out_dtype refused.
  destruct (accepted_call_shapes x64 values post_ids post_num pre_ids c Hc)
    as (l' & d0 & Hlen' & Hl & Hd0 & _ & Hu & Hf & Hpost & Hnum).
  assert (l' = l) by congruence. subst l'.
  subst translate refused out_dtype.
  unfold _atomic_sum_translation, py_assert, x_shape, ConstantLiteral, np_uint32.
  rewrite Hl, Hd0, Hu, Hf, Hnum, Hscalar. cbn [mbind result_bind].
  split; [|split].
  - cbn [String.eqb Ascii.eqb Bool.eqb].
    change (element_type (abstractify x64 (pc_values c)))
      with (canonicalize_dtype x64 (arr_dtype (pc_values c))).
    destruct (constant_literal_raises (ConstUint32 (l mod 2 ^ 32)));
      [destruct (negb (d0 =? 1)); reflexivity|].
    destruct (constant_literal_raises (ConstInt post_num));
      [destruct (negb (d0 =? 1)); reflexivity|].
    destruct (array_shape_raises _ [post_num] [0]);
      [destruct (negb (d0 =? 1)); reflexivity|].
    destruct (negb (d0 =? 1)); cbn [mbind result_bind];
      eexists; (split; [reflexivity|]); split; reflexivity.
  - intros ->. reflexivity.
  - intros platform H1 H2. apply String.eqb_neq in H1, H2.
    rewrite H1, H2. reflexivity.
Qed.

Lemma accepted_call_translates_witness :
  let values := array1 float64 [float_1; float_2; float_3] in
  let pre_ids := array1 uint32 [0; 1; 2] in
  let post_ids := array1 uint32 [0; 1; 0] in
  let translate post_num :=
    _atomic_sum_translation example_array_shape_raises
      example_constant_literal_raises None
      (abstractify false values) (abstractify false pre_ids)
      (abstractify false post_ids) post_num in
  coo_atomic_sum false values post_ids 2 (Some pre_ids)
    = Ok (mk_prim_call values pre_ids post_ids 2) /\
  coo_atomic_sum false values post_ids (-1) (Some pre_ids)
    = Ok (mk_prim_call values pre_ids post_ids (-1)) /\
  (exists cc, translate 2 "cpu" = Ok cc /\
              cc_shape cc = mk_xla_shape float32 [2] /\
              cc_opaque cc = None) /\
  translate (-1) "cpu"
    = Raise (RuntimeError "Invalid argument: negative dimension") /\
  translate 2 "gpu" = Raise (ValueError "Cannot find compiled gpu wheels.") /\
  translate 2 "tpu" = Raise (ValueError
    "Unsupported platform; this must be either 'cpu' or 'gpu'").
Proof.
  intros values pre_ids post_ids translate.
  assert (Hc : forall n, coo_atomic_sum false values post_ids n (Some pre_ids)
                         = Ok (mk_prim_call values pre_ids post_ids n))
    by (intros n; vm_compute; reflexivity).
  destruct (accepted_call_translates false example_array_shape_raises
              example_constant_literal_raises None values post_ids 2
              (Some pre_ids) _ 3 (Hc 2) eq_refl eq_refl)
    as (Hcpu & Hgpu & Hother).
  destruct (accepted_call_translates false example_array_shape_raises
              example_constant_literal_raises None values post_ids (-1)
              (Some pre_ids) _ 3 (Hc (-1)) eq_refl eq_refl)
    as (Hneg & _ & _).
  split; [exact (Hc 2)|]. split; [exact (Hc (-1))|].
  split; [exact Hcpu|]. split; [exact Hneg|].
  split; [exact (Hgpu eq_refl)|].
  apply Hother; discriminate.
Defined.

(** X10.  For an accepted call that the XLA client takes, the translation
    rule picks the kernel by the first dimension of [values]: when it is 1
    the custom call is the [homo] one and has no [pre_ids] operand,
    otherwise it is the [heter] one with [pre_ids]; the constant
    [conn_size] is the length of [post_ids] as a uint32.  For a [values] of
    at most one dimension the test is that of the wrapper (one element); a
    [values] of shape [(1, n)] is checked as a vector and translated as a
    scalar. *)
Theorem kernel_follows_first_dimension (x64 : bool)
    (array_shape_raises : dtype -> list Z -> list Z -> option exn)
    (constant_literal_raises : constant -> option exn)
    (gpu_ops : option (Z -> Z -> result string))
    (values : ndarray float) (post_ids : ndarray Z) (post_num : Z)
    (pre_ids : option (ndarray Z)) (c : prim_call) (l : Z) :
  coo_atomic_sum x64 values post_ids post_num pre_ids = Ok c ->
  len post_ids = Ok l ->
  array_shape_raises uint32 [] [] = None ->
  constant_literal_raises (ConstUint32 (l mod 2 ^ 32)) = None ->
  constant_literal_raises (ConstInt post_num) = None ->
  array_shape_raises (canonicalize_dtype x64 (arr_dtype (pc_values c)))
    [post_num] [0] = None ->
  exists cc d0,
    _atomic_sum_translation array_shape_raises constant_literal_raises gpu_ops
      (abstractify x64 (pc_values c)) (abstractify x64 (pc_pre_ids c))
      (abstractify x64 (pc_post_ids c)) (pc_post_num c) "cpu" = Ok cc /\
    dimension0 (abstractify x64 (pc_values c)) = Ok d0 /\
    (d0 = 1 ->
     cc_operands cc = [OpValues; OpPostIds;
                       OpConstant (ConstUint32 (l mod 2 ^ 32));
                       OpConstant (ConstInt post_num)] /\
     starts_with "cpu_coo_atomic_sum_homo" (cc_target cc) = true) /\
    (d0 <> 1 ->
     cc_operands cc = [OpValues; OpPreIds; OpPostIds;
                       OpConstant (ConstUint32 (l mod 2 ^ 32));
                       OpConstant (ConstInt post_num)] /\
     starts_with "cpu_coo_atomic_sum_heter" (cc_target cc) = true) /\
    (ndim values <= 1 -> (d0 = 1 <-> size values = 1)).
Proof.
  intros Hc Hlen Hscalar Hconn Hnumk Hshape.
  destruct (accepted_call_shapes x64 values post_ids post_num pre_ids c Hc)
    as (l' & d0 & Hlen' & Hl & Hd0 & Hiff & Hu & Hf & Hpost & Hnum).
  assert (l' = l) by congruence. subst l'.
  unfold _atomic_sum_translation, py_assert, x_shape, ConstantLiteral, np_uint32.
  rewrite Hl, Hd0, Hu, Hf, Hnum, Hscalar. cbn [mbind result_bind].
  change (element_type (abstractify x64 (pc_values c)))
    with (canonicalize_dtype x64 (arr_dtype (pc_values c))).
  rewrite Hconn, Hnumk, Hshape.
  cbn [String.eqb Ascii.eqb Bool.eqb].
  destruct (Z.eqb_spec d0 1) as [H1|H1]; cbn [negb mbind result_bind];
    eexists _, d0; (split; [reflexivity|]); (split; [reflexivity|]);
    cbn [cc_operands cc_target];
    (split; [intros H; try contradiction; split; reflexivity|]);
    (split; [intros H; try contradiction; split; reflexivity|]);
    exact Hiff.
Qed.

Lemma kernel_follows_first_dimension_witness :
  let values := mk_ndarray float32 [1; 3] [float_1; float_2; float_3] in
  let pre_ids := array1 uint32 [0; 1; 2] in
  let post_ids := array1 uint32 [0; 1; 0] in
  size values <> 1 /\
  exists c cc,
    coo_atomic_sum false values post_ids 2 (Some pre_ids) = Ok c /\
    _atomic_sum_translation example_array_shape_raises
      example_constant_literal_raises None
      (abstractify false (pc_values c)) (abstractify false (pc_pre_ids c))
      (abstractify false (pc_post_ids c)) (pc_post_num c) "cpu" = Ok cc /\
    dimension0 (abstractify false (pc_values c)) = Ok 1 /\
    cc_operands cc = [OpValues; OpPostIds; OpConstant (ConstUint32 3);
                      OpConstant (ConstInt 2)] /\
    starts_with "cpu_coo_atomic_sum_homo" (cc_target cc) = true.
Proof.
  intros values pre_ids post_ids. split; [vm_compute; discriminate|].
  assert (Hc : coo_atomic_sum false values post_ids 2 (Some pre_ids)
               = Ok (mk_prim_call values pre_ids post_ids 2))
    by (vm_compute; reflexivity).
  destruct (kernel_follows_first_dimension false example_array_shape_raises
              example_constant_literal_raises None values post_ids 2
              (Some pre_ids) _ 3 Hc eq_refl eq_refl eq_refl eq_refl eq_refl)
    as (cc & d0 & Hcc & Hd0 & Hhomo & _ & _).
  assert (d0 = 1) by (vm_compute in Hd0; congruence). subst d0.
  exists (mk_prim_call values pre_ids post_ids 2), cc.
  split; [exact Hc|]. split; [exact Hcc|]. split; [exact Hd0|].
  exact (Hhomo eq_refl).
Defined.

End AtomicSumMore.

(** ** [SynConn], the delay and the decorators *)

Module NpBrainMore.
Import NpBrain.

Lemma SynConn_init_fst (a : init_args) (dt : float) (syn_no : Z) :
  fst (SynConn_init a dt syn_no)
  = match a_name a with None => syn_no + 1 | Some _ => syn_no end.
Proof. unfold SynConn_init. destruct (a_name a); reflexivity. Qed.

Lemma SynConn_init_name (a : init_args) (dt : float) (syn_no : Z)
    (s : SynConn) :
  snd (SynConn_init a dt syn_no) = Ok s ->
  name s = match a_name a with
           | None => "SynConn" +:+ str_int syn_no
           | Some nm => nm
           end.
Proof.
  unfold SynConn_init.
  destruct (a_name a) as [nm|]; cbn [snd];
    (destruct (match a_pre_group a with Some _ => _ | None => _ end)
       as [[w k]|e]; cbn [mbind result_bind]; [|discriminate]);
    (destruct (py_assert _ _); cbn [mbind result_bind]; [|discriminate]);
    (destruct (init_delay_len _ _); cbn [mbind result_bind]; [|discriminate]);
    intros [= <-]; reflexivity.
Qed.

(** An exception of the group branch is the exception of the constructor. *)
Lemma SynConn_init_connect_raise (a : init_args) (dt : float) (syn_no : Z)
    (p q : group_arg) (e : exn) :
  a_pre_group a = Some p -> a_post_group a = Some q ->
  connect p q (a_conn a) = Raise e ->
  snd (SynConn_init a dt syn_no) = Raise e.
Proof.
  intros Hp Hq He. unfold SynConn_init.
  destruct (match a_name a with
            | Some name => (name, syn_no)
            | None => ("SynConn" +:+ str_int syn_no, syn_no + 1)
            end) as [nm k].
  cbn [snd]. rewrite Hp, Hq, He. reflexivity.
Qed.

(** X11.  A construction without a name takes the name [SynConn<n>] from
    the module counter and advances the counter by one, also when the
    construction fails; so two unnamed constructions in a row get different
    names.  A construction with a name leaves the counter as it is. *)
Theorem unnamed_SynConn_names (a a' a'' : init_args) (dt dt' dt'' : float)
    (syn_no : Z) (nm : string) :
  a_name a = None -> a_name a' = None -> a_name a'' = Some nm ->
  fst (SynConn_init a dt syn_no) = syn_no + 1 /\
  fst (SynConn_init a' dt' (fst (SynConn_init a dt syn_no))) = syn_no + 2 /\
  fst (SynConn_init a'' dt'' syn_no) = syn_no /\
  (forall s, snd (SynConn_init a'' dt'' syn_no) = Ok s -> name s = nm) /\
  (forall s s',
     snd (SynConn_init a dt syn_no) = Ok s ->
     snd (SynConn_init a' dt' (fst (SynConn_init a dt syn_no))) = Ok s' ->
     name s = "SynConn" +:+ str_int syn_no /\
     name s' = "SynConn" +:+ str_int (syn_no + 1) /\
     name s <> name s').
Proof.
  intros Ha Ha' Ha''. rewrite !SynConn_init_fst, Ha, Ha', Ha''.
  split; [reflexivity|]. split; [lia|]. split; [reflexivity|]. split.
  - intros s Hs. apply SynConn_init_name in Hs. rewrite Ha'' in Hs. exact Hs.
  - intros s s' Hs Hs'. apply SynConn_init_name in Hs, Hs'.
    rewrite Ha in Hs. rewrite Ha' in Hs'. split; [exact Hs|].
    split; [exact Hs'|]. rewrite Hs, Hs'. cbn. intros [= H].
    change (str_int syn_no = str_int (syn_no + 1)) in H.
    unfold str_int in H. apply (inj pretty) in H. lia.
Qed.

Lemma unnamed_SynConn_names_witness :
  let a := mk_init_args PyNone PyNone None None None (Some 1)
             PyNone PyNone PyNone None in
  let bad := mk_init_args PyNone PyNone None None None None
               PyNone PyNone PyNone None in
  let named := mk_init_args PyNone PyNone None None None (Some 1)
                 PyNone PyNone PyNone (Some "ampa") in
  fst (SynConn_init bad float_0_1 7) = 8 /\
  (exists e, snd (SynConn_init bad float_0_1 7) = Raise e) /\
  fst (SynConn_init a float_0_1 (fst (SynConn_init bad float_0_1 7))) = 9 /\
  fst (SynConn_init named float_0_1 7) = 7.
Proof.
  intros a bad named.
  destruct (unnamed_SynConn_names bad a named float_0_1 float_0_1 float_0_1 7
              "ampa" eq_refl eq_refl eq_refl) as (H1 & H2 & H3 & _).
  split; [exact H1|]. split; [eexists; vm_compute; reflexivity|].
  split; [exact H2|exact H3].
Defined.

(** The constructor when a group is missing. *)
Lemma SynConn_init_no_groups (a : init_args) (dt : float) (syn_no : Z) :
  a_pre_group a = None \/ a_post_group a = None ->
  snd (SynConn_init a dt syn_no)
  = (num ← match a_num a with
           | Some num => Ok num
           | None => Raise (AssertionError
               (dq +:+ "num" +:+ dq +:+ " must be provided when " +:+ dq +:+
                "pre" +:+ dq +:+ " and " +:+ dq +:+ "post" +:+ dq +:+
                " are none."))
           end;
     py_assert ((0 <? num) && (num <? 2 ^ 64)) num_msg;;
     delay_len ← init_delay_len (a_delay a) dt;
     let self := BaseEnsemble_init (a_create_func a)
                   (match a_name a with
                    | None => "SynConn" +:+ str_int syn_no
                    | Some nm => nm
                    end) num (a_pars_update a) (a_vars_init a) (a_monitors a) in
     Ok (mk_SynConn self (a_pre_group a) (a_post_group a) None delay_len
           (SynState_of self delay_len))).
Proof.
  intros H. unfold SynConn_init.
  destruct (a_name a) as [nm|]; cbn [snd];
    (destruct H as [H|H]; rewrite H;
     [|destruct (a_pre_group a)];
     destruct (a_num a); reflexivity).
Qed.

(** X12.  Unless both a pre- and a post-group are given, [conn] is not
    looked at: the construction has the same outcome for any [conn], the
    [SynConn] has no edges of its own and its [num] is the argument
    [num]. *)
Theorem conn_unused_without_groups (a : init_args) (dt : float) (syn_no : Z)
    (conn' : option conn_arg) :
  a_pre_group a = None \/ a_post_group a = None ->
  SynConn_init
    (mk_init_args (a_create_func a) (a_delay a) (a_pre_group a)
       (a_post_group a) conn' (a_num a) (a_monitors a) (a_vars_init a)
       (a_pars_update a) (a_name a)) dt syn_no
  = SynConn_init a dt syn_no /\
  (forall s, snd (SynConn_init a dt syn_no) = Ok s ->
             wires s = None /\ a_num a = Some (num s)).
Proof.
  intros H. split.
  - apply injective_projections.
    + rewrite !SynConn_init_fst. reflexivity.
    + rewrite !SynConn_init_no_groups by exact H. reflexivity.
  - intros s. rewrite SynConn_init_no_groups by exact H.
    destruct (a_num a) as [k|]; cbn [mbind result_bind]; [|discriminate].
    destruct (py_assert _ _); cbn [mbind result_bind]; [|discriminate].
    destruct (init_delay_len _ _); cbn [mbind result_bind]; [|discriminate].
    intros [= <-]. split; reflexivity.
Qed.

Lemma conn_unused_without_groups_witness :
  let group := IsNeuGroup (mk_NeuGroup 2 [2] ∅) in
  let a := mk_init_args PyNone PyNone (Some group) None
             (Some (IsArray (array1 int64 [1; 0]))) (Some 5)
             PyNone PyNone PyNone (Some "syn") in
  let a' := mk_init_args PyNone PyNone (Some group) None None (Some 5)
              PyNone PyNone PyNone (Some "syn") in
  SynConn_init a' float_0_1 0 = SynConn_init a float_0_1 0 /\
  exists s, snd (SynConn_init a float_0_1 0) = Ok s /\
            wires s = None /\ num s = 5.
Proof.
  intros group a a'.
  destruct (conn_unused_without_groups a float_0_1 0 None
              (or_intror eq_refl)) as [Heq Hs].
  split; [exact Heq|].
  destruct (snd (SynConn_init a float_0_1 0)) as [s|e] eqn:Hinit;
    [|vm_compute in Hinit; discriminate].
  exists s. split; [reflexivity|].
  destruct (Hs s eq_refl) as [Hw Hn]. split; [exact Hw|].
  cbn in Hn. congruence.
Defined.

(** X13.  Without both groups, the argument [num] is checked before the
    delay is looked at: a missing [num], and a [num] outside
    [0 < num < 2^64], raise an [AssertionError] whatever [delay] and [dt]
    are. *)
Theorem num_checked_before_delay (a : init_args) (dt : float) (syn_no : Z) :
  a_pre_group a = None \/ a_post_group a = None ->
  (a_num a = None ->
   snd (SynConn_init a dt syn_no) = Raise (AssertionError
     (dq +:+ "num" +:+ dq +:+ " must be provided when " +:+ dq +:+
      "pre" +:+ dq +:+ " and " +:+ dq +:+ "post" +:+ dq +:+ " are none."))) /\
  (forall k, a_num a = Some k -> k <= 0 \/ 2 ^ 64 <= k ->
     snd (SynConn_init a dt syn_no) = Raise (AssertionError num_msg)).
Proof.
  intros H. rewrite SynConn_init_no_groups by exact H. split.
  - intros ->. reflexivity.
  - intros k -> Hk. cbn [mbind result_bind]. unfold py_assert.
    replace ((0 <? k) && (k <? 2 ^ 64)) with false; [reflexivity|].
    symmetry. apply andb_false_iff.
    destruct Hk as [Hk|Hk]; [left; apply Z.ltb_ge|right; apply Z.ltb_ge];
      exact Hk.
Qed.

Lemma num_checked_before_delay_witness :
  let a := fun num => mk_init_args PyNone (PyStr "later") None None None num
             PyNone PyNone PyNone None in
  (exists msg, snd (SynConn_init (a None) float_zero 0)
               = Raise (AssertionError msg) /\
               includes "must be provided" msg = true) /\
  snd (SynConn_init (a (Some 0)) float_zero 0)
    = Raise (AssertionError num_msg) /\
  snd (SynConn_init (a (Some (2 ^ 64))) float_zero 0)
    = Raise (AssertionError num_msg).
Proof.
  intros a. split; [|split].
  - eexists. split.
    + apply (proj1 (num_checked_before_delay (a None) float_zero 0
                      (or_introl eq_refl)) eq_refl).
    + vm_compute. reflexivity.
  - apply (proj2 (num_checked_before_delay (a (Some 0)) float_zero 0
                    (or_introl eq_refl)) 0 eq_refl). left. lia.
  - apply (proj2 (num_checked_before_delay (a (Some (2 ^ 64))) float_zero 0
                    (or_introl eq_refl)) (2 ^ 64) eq_refl). right. lia.
Defined.

(** X14.  With a pre-group, a post-group and a [dict] as [conn]: a
    dictionary without the key ['i'], or with ['i'] and without ['j'],
    makes the constructor raise an [AssertionError] that names the missing
    item; when a [SynConn] is constructed, its [pre_ids] and [post_ids] are
    the two lists as given, in their order, [pre_ids] is not empty, and
    [pre] and [post] are the states of the two groups. *)
Theorem dict_conn_edges (a : init_args) (dt : float) (syn_no : Z)
    (pre_g post_g : NeuGroup) (d : gmap string (list Z)) :
  a_pre_group a = Some (IsNeuGroup pre_g) ->
  a_post_group a = Some (IsNeuGroup post_g) ->
  a_conn a = Some (IsDict d) ->
  (d !! "i" = None ->
   snd (SynConn_init a dt syn_no) = Raise (AssertionError
     (dq +:+ "conn" +:+ dq +:+ " must provide " +:+ dq +:+ "i" +:+ dq +:+
      " item."))) /\
  (is_Some (d !! "i") -> d !! "j" = None ->
   snd (SynConn_init a dt syn_no) = Raise (AssertionError
     (dq +:+ "conn" +:+ dq +:+ " must provide " +:+ dq +:+ "j" +:+ dq +:+
      " item."))) /\
  (forall s, snd (SynConn_init a dt syn_no) = Ok s ->
     exists w, wires s = Some w /\
               d !! "i" = Some (pre_ids w) /\ d !! "j" = Some (post_ids w) /\
               pre_ids w <> [] /\
               pre w = ng_ST pre_g /\ post w = ng_ST post_g).
Proof.
  intros Hpre Hpost Hconn. split; [|split].
  - intros Hi.
    apply (SynConn_init_connect_raise a dt syn_no _ _ _ Hpre Hpost).
    rewrite Hconn. unfold connect. cbn [mbind result_bind].
    unfold dict_edges. rewrite Hi. reflexivity.
  - intros [i Hi] Hj.
    apply (SynConn_init_connect_raise a dt syn_no _ _ _ Hpre Hpost).
    rewrite Hconn. unfold connect. cbn [mbind result_bind].
    unfold dict_edges. rewrite Hi, Hj. reflexivity.
  - intros s Hs.
    destruct (SynConn_init a dt syn_no) as [k r] eqn:Hinit. cbn [snd] in Hs.
    subst r.
    apply NpBrainFacts.SynConn_init_ok in Hinit
      as (nm & w & n & dl & Hw & Hn & _ & ->).
    rewrite Hpre, Hpost, Hconn in Hw. destruct Hw as (w0 & Hc & -> & ->).
    exists w0. cbn [wires]. split; [reflexivity|].
    unfold connect in Hc. cbn [mbind result_bind] in Hc.
    unfold dict_edges, py_assert, getitem, asarray_int in Hc.
    destruct (d !! "i") as [i|]; cbn [mbind result_bind] in Hc;
      [|discriminate].
    destruct (d !! "j") as [j|]; cbn [mbind result_bind] in Hc;
      [|discriminate].
    destruct (bool_decide (is_Some (Some i))); cbn [mbind result_bind] in Hc;
      [|discriminate].
    destruct (bool_decide (is_Some (Some j))); cbn [mbind result_bind] in Hc;
      [|discriminate].
    destruct (forallb _ i); cbn [mbind result_bind] in Hc; [|discriminate].
    destruct (forallb _ j); cbn [mbind result_bind] in Hc; [|discriminate].
    injection Hc as <-. cbn [pre_ids post_ids pre post] in *.
    repeat split. intros ->. cbn in Hn. lia.
Qed.

Lemma dict_conn_edges_witness :
  let group := mk_NeuGroup 2 [2] (<["V" := [float_1; float_2]]> ∅) in
  let args := fun d => mk_init_args PyNone PyNone (Some (IsNeuGroup group))
                (Some (IsNeuGroup group)) (Some (IsDict d)) None
                PyNone PyNone PyNone None in
  let d := <["i" := [1; 0; 1]]> (<["j" := [0; 0; 1]]> ∅) in
  (exists msg, snd (SynConn_init (args ∅) float_0_1 0)
               = Raise (AssertionError msg)) /\
  (exists msg, snd (SynConn_init (args (<["i" := [0]]> ∅)) float_0_1 0)
               = Raise (AssertionError msg)) /\
  exists s w, snd (SynConn_init (args d) float_0_1 0) = Ok s /\
              wires s = Some w /\
              pre_ids w = [1; 0; 1] /\ post_ids w = [0; 0; 1] /\
              pre w = ng_ST group.
Proof.
  intros group args d. split; [|split].
  - eexists.
    apply (proj1 (dict_conn_edges (args ∅) float_0_1 0 group group ∅
                    eq_refl eq_refl eq_refl)). reflexivity.
  - eexists.
    apply (proj1 (proj2 (dict_conn_edges (args (<["i" := [0]]> ∅)) float_0_1 0
                           group group _ eq_refl eq_refl eq_refl))).
    + vm_compute. eauto.
    + reflexivity.
  - destruct (snd (SynConn_init (args d) float_0_1 0)) as [s|e] eqn:Hinit;
      [|vm_compute in Hinit; discriminate].
    destruct (proj2 (proj2 (dict_conn_edges (args d) float_0_1 0 group group d
                              eq_refl eq_refl eq_refl)) s Hinit)
      as (w & Hw & Hi & Hj & _ & Hp & _).
    exists s, w. split; [reflexivity|]. split; [exact Hw|].
    assert (Hdi : d !! "i" = Some [1; 0; 1]) by reflexivity.
    assert (Hdj : d !! "j" = Some [0; 0; 1]) by reflexivity.
    split; [congruence|]. split; [congruence|exact Hp].
Defined.



(** X16.  With a pre-group, a post-group and a [Connector] as [conn]: the
    connector is called with the geometries of the two groups; an exception
    of the call is the exception of the constructor; a result without the
    item ['i'] raises [KeyError]; and the [pre_ids] and [post_ids] of a
    constructed [SynConn] are the items ['i'] and ['j'] of the result. *)
Theorem connector_conn_edges (a : init_args) (dt : float) (syn_no : Z)
    (pre_g post_g : NeuGroup)
    (call : list Z -> list Z -> result (gmap string (list Z))) :
  a_pre_group a = Some (IsNeuGroup pre_g) ->
  a_post_group a = Some (IsNeuGroup post_g) ->
  a_conn a = Some (IsConnector call) ->
  (forall e, call (ng_geometry pre_g) (ng_geometry post_g) = Raise e ->
     snd (SynConn_init a dt syn_no) = Raise e) /\
  (forall res, call (ng_geometry pre_g) (ng_geometry post_g) = Ok res ->
     res !! "i" = None ->
     snd (SynConn_init a dt syn_no) = Raise (KeyError "i")) /\
  (forall s, snd (SynConn_init a dt syn_no) = Ok s ->
     exists res w,
       call (ng_geometry pre_g) (ng_geometry post_g) = Ok res /\
       wires s = Some w /\
       res !! "i" = Some (pre_ids w) /\ res !! "j" = Some (post_ids w) /\
       num s = Z.of_nat (length (pre_ids w))).
Proof.
  intros Hpre Hpost Hconn. split; [|split].
  - intros e He.
    apply (SynConn_init_connect_raise a dt syn_no _ _ _ Hpre Hpost).
    rewrite Hconn. unfold connect. cbn [mbind result_bind]. rewrite He.
    reflexivity.
  - intros res Hres Hi.
    apply (SynConn_init_connect_raise a dt syn_no _ _ _ Hpre Hpost).
    rewrite Hconn. unfold connect. cbn [mbind result_bind]. rewrite Hres.
    cbn [mbind result_bind]. unfold getitem. rewrite Hi. reflexivity.
  - intros s Hs.
    destruct (SynConn_init a dt syn_no) as [k r] eqn:Hinit. cbn [snd] in Hs.
    subst r.
    apply NpBrainFacts.SynConn_init_ok in Hinit
      as (nm & w & n & dl & Hw & Hn & _ & ->).
    rewrite Hpre, Hpost, Hconn in Hw. destruct Hw as (w0 & Hc & -> & ->).
    unfold connect in Hc. cbn [mbind result_bind] in Hc.
    destruct (call (ng_geometry pre_g) (ng_geometry post_g)) as [res|e];
      cbn [mbind result_bind] in Hc; [|discriminate].
    unfold getitem in Hc.
    destruct (res !! "i") as [i|] eqn:Hi; cbn [mbind result_bind] in Hc;
      [|discriminate].
    destruct (res !! "j") as [j|] eqn:Hj; cbn [mbind result_bind] in Hc;
      [|discriminate].
    injection Hc as <-. eexists res, _. repeat split; assumption.
Qed.

Lemma connector_conn_edges_witness :
  let pre_g := mk_NeuGroup 2 [2] ∅ in
  let post_g := mk_NeuGroup 3 [3] ∅ in
  let one2one := fun (g g' : list Z) =>
    if bool_decide (g = g')
    then Ok (<["i" := [0; 1]]> (<["j" := [0; 1]]> (∅ : gmap string (list Z))))
    else Raise (ValueError "sizes differ") in
  let a := mk_init_args PyNone PyNone (Some (IsNeuGroup pre_g))
             (Some (IsNeuGroup post_g)) (Some (IsConnector one2one)) None
             PyNone PyNone PyNone None in
  one2one (ng_geometry pre_g) (ng_geometry post_g)
    = Raise (ValueError "sizes differ") /\
  snd (SynConn_init a float_0_1 0) = Raise (ValueError "sizes differ").
Proof.
  intros pre_g post_g one2one a.
  assert (H : one2one (ng_geometry pre_g) (ng_geometry post_g)
              = Raise (ValueError "sizes differ")) by reflexivity.
  split; [exact H|].
  exact (proj1 (connector_conn_edges a float_0_1 0 pre_g post_g one2one
                  eq_refl eq_refl eq_refl) _ H).
Defined.

(** *** More on the delay *)

Lemma binary_round_aux_not_positive (mx ex : Z) (lx : location) :
  not_positive (binary_round_aux prec emax true mx ex lx) = true.
Proof.
  unfold binary_round_aux.
  destruct (shr_fexp prec emax mx ex lx) as [mrs' e'].
  destruct (shr_fexp prec emax _ e' loc_Exact) as [mrs'' e''].
  destruct (shr_m mrs''); [reflexivity| |reflexivity].
  destruct (e'' <=? emax - prec); reflexivity.
Qed.

Lemma float_div_not_positive (d dt : float) :
  not_positive d = true -> not_negative dt = true ->
  float_is_zero dt = false ->
  not_positive (float_div d dt) = true.
Proof.
  unfold float_div, SFdiv.
  destruct d as [s|s| |s m e], dt as [s'|s'| |s' m' e'];
    try destruct s; try destruct s';
    cbn [not_positive not_negative negb xorb float_is_zero];
    try discriminate; intros _ _ _; try reflexivity.
  destruct (SFdiv_core_binary prec emax (Z.pos m) e (Z.pos m') e')
    as [[mz ez] lz].
  apply binary_round_aux_not_positive.
Qed.

Lemma float_of_int_not_positive (n : Z) (d : float) :
  n <= 0 -> float_of_int n = Ok d -> not_positive d = true.
Proof.
  unfold float_of_int, binary_normalize. intros Hn.
  destruct n as [|m|m]; [intros [= <-]; reflexivity|lia|].
  unfold binary_round.
  destruct (shl_align m 0 _) as [mz ez].
  pose proof (binary_round_aux_not_positive (Z.pos mz) ez loc_Exact) as H.
  destruct (binary_round_aux prec emax true (Z.pos mz) ez loc_Exact);
    try discriminate; intros [= <-]; exact H.
Qed.

Lemma int_of_ceil_nonpos (x : float) (k : Z) :
  not_positive x = true -> int_of_ceil x = Ok k -> k <= 0.
Proof.
  destruct x as [s|s| |s m e]; cbn [int_of_ceil not_positive]; try discriminate.
  - intros _ [= <-]. lia.
  - destruct s; [|discriminate]. intros _ [= <-].
    destruct (0 <=? e) eqn:He.
    + apply Z.leb_le in He. pose proof (Z.pow_nonneg 2 e). nia.
    + apply Z.leb_gt in He.
      assert (Hd : 0 < 2 ^ (- e)) by (apply Z.pow_pos_nonneg; lia).
      pose proof (Z.div_mod (- Z.neg m) (2 ^ (- e)) ltac:(lia)) as Hdm.
      pose proof (Z.mod_pos_bound (- Z.neg m) (2 ^ (- e)) Hd) as Hb.
      nia.
Qed.

Lemma int_of_ceil_positive (m : positive) (e k : Z) :
  int_of_ceil (S754_finite false m e) = Ok k -> 1 <= k.
Proof.
  cbn [int_of_ceil]. intros [= <-].
  destruct (0 <=? e) eqn:He.
  - apply Z.leb_le in He.
    assert (0 < 2 ^ e) by (apply Z.pow_pos_nonneg; lia). nia.
  - apply Z.leb_gt in He.
    assert (Hd : 0 < 2 ^ (- e)) by (apply Z.pow_pos_nonneg; lia).
    pose proof (Z.div_mod (- Z.pos m) (2 ^ (- e)) ltac:(lia)) as Hdm.
    pose proof (Z.mod_pos_bound (- Z.pos m) (2 ^ (- e)) Hd) as Hb.
    nia.
Qed.

Lemma float_leb_zero_r (d : float) :
  float_leb d float_zero = true -> not_positive d = true.
Proof. destruct d as [s|s| |s m e]; try destruct s; cbn; congruence. Qed.

(** X17.  When [dt] is zero, a numeric [delay] cannot be converted, also
    the default [delay = 0.]: the conversion raises, so every construction
    with a delay other than [None] fails with an error.  Which error it is
    depends on the kind of number (a Python float, as here, raises at the
    division; a NumPy float divides to an infinity or a NaN, which [int]
    refuses).  [delay = None] does not read [dt]. *)
Theorem zero_dt_rejects_numeric_delay (a : init_args) (dt : float)
    (syn_no : Z) :
  float_is_zero dt = true ->
  init_delay_len PyNone dt = Ok 0 /\
  (forall d, exists e, init_delay_len (PyFloat d) dt = Raise e) /\
  (forall n, exists e, init_delay_len (PyInt n) dt = Raise e) /\
  (a_delay a <> PyNone ->
   exists e, snd (SynConn_init a dt syn_no) = Raise e).
Proof.
  intros Hdt.
  assert (Hf : forall d, exists e, init_delay_len (PyFloat d) dt = Raise e).
  { intros d. cbn [init_delay_len]. unfold py_truediv. rewrite Hdt.
    cbn [mbind result_bind]. eauto. }
  assert (Hi : forall n, exists e, init_delay_len (PyInt n) dt = Raise e).
  { intros n. cbn [init_delay_len].
    destruct (float_of_int n) as [d|e]; cbn [mbind result_bind]; [|eauto].
    unfold py_truediv. rewrite Hdt. cbn [mbind result_bind]. eauto. }
  split; [reflexivity|]. split; [exact Hf|]. split; [exact Hi|].
  intros Hdelay.
  destruct (SynConn_init a dt syn_no) as [k [s|e]] eqn:Hinit;
    [|exists e; reflexivity].
  apply NpBrainFacts.SynConn_init_ok in Hinit
    as (_ & _ & _ & dl & _ & _ & Hdl & _).
  destruct (a_delay a) as [|n|d|str|o]; try discriminate.
  - contradiction.
  - destruct (Hi n) as [e He]. congruence.
  - destruct (Hf d) as [e He]. congruence.
Qed.

Lemma zero_dt_rejects_numeric_delay_witness :
  let a := mk_init_args PyNone (PyFloat float_zero) None None None (Some 1)
             PyNone PyNone PyNone None in
  float_is_zero float_zero = true /\ a_delay a <> PyNone /\
  (exists e, init_delay_len (PyFloat float_zero) float_zero = Raise e) /\
  exists e, snd (SynConn_init a float_zero 0) = Raise e.
Proof.
  intros a.
  destruct (zero_dt_rejects_numeric_delay a float_zero 0 eq_refl)
    as (_ & Hf & _ & Ha).
  split; [reflexivity|]. split; [discriminate|]. split; [apply Hf|].
  apply Ha. discriminate.
Defined.

(** X18.  A delay of zero, the default [0.] or the [int] 0, gives
    [delay_len = 0] for every [dt] that is a number other than zero, like
    [delay = None]; with a NaN as [dt] it raises a [ValueError]. *)
Theorem zero_delay_no_steps (dt : float) (s : bool) :
  (float_is_zero dt = false -> dt <> S754_nan ->
   init_delay_len (PyFloat (S754_zero s)) dt = Ok 0 /\
   init_delay_len (PyInt 0) dt = Ok 0) /\
  (dt = S754_nan ->
   init_delay_len (PyFloat (S754_zero s)) dt
     = Raise (ValueError "cannot convert float NaN to integer") /\
   init_delay_len (PyInt 0) dt
     = Raise (ValueError "cannot convert float NaN to integer")).
Proof.
  split.
  - intros Hz Hnan. cbn [init_delay_len]. unfold py_truediv. rewrite Hz.
    destruct dt as [s'|s'| |s' m e]; try discriminate; try contradiction;
      split; reflexivity.
  - intros ->. split; reflexivity.
Qed.

Lemma zero_delay_no_steps_witness :
  init_delay_len (PyFloat float_zero) float_0_1 = Ok 0 /\
  init_delay_len (PyInt 0) float_0_1 = Ok 0 /\
  init_delay_len (PyFloat float_zero) S754_nan
    = Raise (ValueError "cannot convert float NaN to integer").
Proof.
  destruct (zero_delay_no_steps float_0_1 false) as [H _].
  destruct (zero_delay_no_steps S754_nan false) as [_ H'].
  destruct H as [H1 H2]; [reflexivity|discriminate|].
  destruct (H' eq_refl) as [H3 _].
  split; [exact H1|]. split; [exact H2|exact H3].
Defined.

(** X19.  With [0 < dt], a delay that is not above zero never gives a
    positive number of steps: [delay_len <= 0]. *)
Theorem nonpositive_delay_len (delay : pyval) (dt : float) (dl : Z) :
  init_delay_len delay dt = Ok dl ->
  match delay with
  | PyFloat d => float_leb d float_zero = true
  | PyInt n => n <= 0
  | _ => True
  end ->
  float_ltb float_zero dt = true ->
  dl <= 0.
Proof.
  intros Hdl Hdelay Hdt.
  apply float_ltb_zero in Hdt as [Hdt Hnz].
  assert (Hq : forall d, not_positive d = true ->
               (q ← py_truediv d dt; int_of_ceil q) = Ok dl -> dl <= 0).
  { intros d Hd. unfold py_truediv. rewrite Hnz. cbn [mbind result_bind].
    apply int_of_ceil_nonpos, float_div_not_positive; assumption. }
  destruct delay as [|n|d|str|o]; cbn [init_delay_len] in Hdl;
    try discriminate.
  - injection Hdl as <-. lia.
  - destruct (float_of_int n) as [d|e] eqn:Hn; cbn [mbind result_bind] in Hdl;
      [|discriminate].
    apply (Hq d); [|exact Hdl].
    apply (float_of_int_not_positive n); assumption.
  - apply (Hq d); [|exact Hdl]. apply float_leb_zero_r, Hdelay.
Qed.

Lemma nonpositive_delay_len_witness :
  init_delay_len (PyInt (-3)) float_0_1 = Ok (-30) /\ -30 <= 0.
Proof.
  assert (H : init_delay_len (PyInt (-3)) float_0_1 = Ok (-30))
    by (vm_compute; reflexivity).
  split; [exact H|].
  apply (nonpositive_delay_len (PyInt (-3)) float_0_1 (-30) H);
    [cbn; lia|reflexivity].
Defined.

(** X20.  With [0 < dt], a float delay above zero gives at least one step,
    unless the quotient [delay / dt] underflows to zero. *)
Theorem positive_delay_one_step (d dt : float) (dl : Z) :
  init_delay_len (PyFloat d) dt = Ok dl ->
  float_ltb float_zero d = true ->
  float_ltb float_zero dt = true ->
  float_is_zero (float_div d dt) = false ->
  1 <= dl.
Proof.
  intros Hdl Hd Hdt Hq.
  apply float_ltb_zero in Hd as [Hd _].
  apply float_ltb_zero in Hdt as [Hdt Hnz].
  cbn [init_delay_len] in Hdl. unfold py_truediv in Hdl. rewrite Hnz in Hdl.
  cbn [mbind result_bind] in Hdl.
  pose proof (float_div_not_negative d dt Hd Hdt Hnz) as Hnn.
  destruct (float_div d dt) as [s|s| |s m e]; try discriminate.
  destruct s; [discriminate|].
  apply (int_of_ceil_positive m e), Hdl.
Qed.

Lemma positive_delay_one_step_witness :
  let tiny := S754_finite false 4503599627370496 (-60) in
  init_delay_len (PyFloat tiny) float_0_1 = Ok 1 /\ 1 <= 1.
Proof.
  intros tiny.
  assert (H : init_delay_len (PyFloat tiny) float_0_1 = Ok 1)
    by (vm_compute; reflexivity).
  split; [exact H|].
  apply (positive_delay_one_step tiny float_0_1 1 H); reflexivity.
Defined.

(** The case that X20 leaves out: the smallest positive float divided by
    four underflows, and the positive delay gives no step. *)
Example underflowing_delay :
  init_delay_len (PyFloat (S754_finite false 1 (-1074)))
    (S754_finite false 4503599627370496 (-50))
  = Ok 0.
Proof. vm_compute. reflexivity. Qed.

(** *** [post_cond_by_post2syn], completely *)

Lemma post_cond_loop_singletons (syn_val : list float)
    (groups : list (list Z)) (xs : list float) :
  Forall2 (fun syn_idx x =>
             exists k, syn_idx = [k] /\ index1 syn_val k = Ok x) groups xs ->
  forall (i : nat) (g_val : list float),
    length g_val = (i + length groups)%nat ->
    post_cond_loop syn_val groups i g_val = Ok (take i g_val ++ xs).
Proof.
  induction 1 as [|syn_idx x groups xs (k & -> & Hk) _ IH];
    intros i g_val Hlen; cbn [post_cond_loop length] in *.
  - rewrite Nat.add_0_r in Hlen. rewrite <- Hlen, firstn_all, app_nil_r.
    reflexivity.
  - cbn [fancy_index]. rewrite Hk. cbn [mbind result_bind].
    unfold setitem_array.
    destruct (Nat.ltb_spec i (length g_val)) as [Hi|Hi]; [|lia].
    cbn [mbind result_bind].
    rewrite IH by (rewrite length_insert; lia).
    rewrite (take_S_r _ i x) by (apply list_lookup_insert_eq; exact Hi).
    rewrite take_insert_ge by lia. rewrite <- app_assoc. reflexivity.
Qed.

(** X21.  [post_cond_by_post2syn(syn_val, post2syn)] returns an array
    exactly when every entry of [post2syn] holds one index that is in
    range for [syn_val] (a negative index counts from the end); the array
    has one value for each postsynaptic neuron, the value of [syn_val] at
    that index. *)
Theorem post_cond_by_post2syn_iff (syn_val : list float)
    (post2syn : list (list Z)) (g_val : list float) :
  post_cond_by_post2syn syn_val post2syn = Ok g_val <->
  Forall2 (fun syn_idx x =>
             exists k, syn_idx = [k] /\
               let n := Z.of_nat (length syn_val) in
               - n <= k < n /\
               x = nth (Z.to_nat (if k <? 0 then k + n else k)) syn_val
                     float_zero)
    post2syn g_val.
Proof.
  assert (Hidx : forall k x,
    index1 syn_val k = Ok x <->
    let n := Z.of_nat (length syn_val) in
    - n <= k < n /\
    x = nth (Z.to_nat (if k <? 0 then k + n else k)) syn_val float_zero).
  { intros k x. unfold index1. cbv zeta.
    set (n := Z.of_nat (length syn_val)).
    destruct (Z.ltb_spec k 0) as [Hk|Hk];
      [destruct (Z.leb_spec 0 (k + n)), (Z.ltb_spec (k + n) n)
      |destruct (Z.leb_spec 0 k), (Z.ltb_spec k n)];
      cbn [andb]; split;
      first [ intros [= <-]; split; [lia|reflexivity]
            | intros [_ ->]; reflexivity
            | discriminate
            | intros [Hrange _]; lia ]. }
  split.
  - intros H. apply NpBrainFacts.post_cond_by_post2syn_returns in H.
    eapply Forall2_impl; [exact H|].
    intros syn_idx x (k & -> & Hk). exists k. split; [reflexivity|].
    apply Hidx, Hk.
  - intros H. unfold post_cond_by_post2syn.
    rewrite (post_cond_loop_singletons syn_val post2syn g_val).
    + rewrite take_0. reflexivity.
    + eapply Forall2_impl; [exact H|].
      intros syn_idx x (k & -> & Hk). exists k. split; [reflexivity|].
      apply Hidx, Hk.
    + rewrite length_replicate. reflexivity.
Qed.

(** *** The decorators *)

(** X22.  [delay_push] and [delay_pull] rename the function they are given
    and return it.  A name made by one never starts with the prefix of the
    other, also when both decorators are applied in turn (the outer one
    decides); each is injective on names, and the old name is what follows
    the prefix of twenty characters. *)
Theorem delay_decorators_names (f g : function) :
  starts_with "_npbrain_delay_push_" (__name__ (delay_push f)) = true /\
  starts_with "_npbrain_delay_pull_" (__name__ (delay_pull f)) = true /\
  starts_with "_npbrain_delay_pull_" (__name__ (delay_push f)) = false /\
  starts_with "_npbrain_delay_push_" (__name__ (delay_pull f)) = false /\
  starts_with "_npbrain_delay_push_" (__name__ (delay_pull (delay_push f)))
    = false /\
  __name__ (delay_push f) <> __name__ (delay_pull g) /\
  (__name__ (delay_push f) = __name__ (delay_push g) ->
   __name__ f = __name__ g) /\
  (__name__ (delay_pull f) = __name__ (delay_pull g) ->
   __name__ f = __name__ g) /\
  String.substring 20 (String.length (__name__ f)) (__name__ (delay_push f))
    = __name__ f /\
  String.substring 20 (String.length (__name__ f)) (__name__ (delay_pull f))
    = __name__ f /\
  fn_code (delay_push f) = fn_code f /\ fn_code (delay_pull f) = fn_code f.
Proof.
  assert (Hsub : forall s : string,
            String.substring 0 (String.length s) s = s).
  { induction s as [|c s IH]; cbn; [reflexivity|]. rewrite IH. reflexivity. }
  unfold delay_push, delay_pull. cbn [__name__ fn_code].
  repeat split; try reflexivity.
  - cbn. discriminate.
  - cbn. intros [= H]. exact H.
  - cbn. intros [= H]. exact H.
  - cbn. apply Hsub.
  - cbn. apply Hsub.
Qed.

Lemma delay_decorators_names_witness :
  let f := mk_function "update" PyNone in
  __name__ (delay_push f) = "_npbrain_delay_push_update" /\
  __name__ (delay_pull (delay_push f))
    = "_npbrain_delay_pull__npbrain_delay_push_update" /\
  (__name__ (delay_push f) = __name__ (delay_push f) ->
   __name__ f = __name__ f).
Proof.
  intros f. split; [reflexivity|]. split; [reflexivity|].
  exact (proj1 (proj2 (proj2 (proj2 (proj2 (proj2 (proj2
           (delay_decorators_names f f)))))))).
Defined.

End NpBrainMore.
